(** * UEFI-extract: capsule containers and firmware tree search

    A shallow embedding of [uefi-extract.py], [extractors/lenovo_iso.py] and
    [extractors/lenovo_exe.py], followed by the properties of the container
    abstraction (entry discovery, lookup, handles) and of the firmware tree
    search (GUID matching, image collection).

    Conventions.  Python [str] values are modelled by [string]; a character is
    a code point below 256, on which the regular expression class [\d] is
    exactly [0-9] and on which [str.lower] and [str.split] behave as written
    in module [Py].  Python [bytes] are [list byte].  A raised exception is a
    value of [exn]; code that can raise returns a [result].  External
    collaborators (FATtools, the kaitai partition table parser, eltorito,
    innoextract, the operating system, uefi_firmware) are parameters: records
    of functions named after the calls the source makes. *)

From Stdlib Require Import List String Ascii Bool Arith NArith ZArith Lia.
From Stdlib Require Import Permutation Sorted.
Import ListNotations.

Set Implicit Arguments.

(* ================================================================== *)
(** * Exceptions and results *)

Inductive exn : Type :=
| KeyError
| ValueError
| IndexError
| AttributeError
| RuntimeError (returncode : option Z)  (* the exit status, where one is
                                           reported *)
| FileNotFoundError
| NotImplementedError
| UnicodeDecodeError.

Inductive result (A : Type) : Type :=
| Ok (a : A)
| Raise (e : exn).

Arguments Ok {A} a.
Arguments Raise {A} e.

Definition bind {A B : Type} (r : result A) (k : A -> result B) : result B :=
  match r with
  | Ok a => k a
  | Raise e => Raise e
  end.

Notation "x <- r ;; k" := (bind r (fun x => k))
  (at level 61, r at next level, right associativity).

Definition of_option {A : Type} (o : option A) (e : exn) : result A :=
  match o with
  | Some a => Ok a
  | None => Raise e
  end.

(* ================================================================== *)
(** * Python built-ins used by the sources *)

Module Py.

Open Scope string_scope.

(** [str.isspace] on one code point below 256. *)
Definition isspace (c : ascii) : bool :=
  let n := nat_of_ascii c in
  (((9 <=? n) && (n <=? 13)) || ((28 <=? n) && (n <=? 32))
   || (n =? 133) || (n =? 160))%nat.

(** The class [\d] on one code point below 256. *)
Definition isdigit (c : ascii) : bool :=
  let n := nat_of_ascii c in ((48 <=? n) && (n <=? 57))%nat.

(** [str.lower] on one code point below 256: A-Z and the Latin-1 capitals. *)
Definition lower_char (c : ascii) : ascii :=
  let n := nat_of_ascii c in
  if (((65 <=? n) && (n <=? 90))
      || ((192 <=? n) && (n <=? 222) && negb (n =? 215)))%nat
  then ascii_of_nat (n + 32) else c.

Fixpoint lower (s : string) : string :=
  match s with
  | EmptyString => EmptyString
  | String c s' => String (lower_char c) (lower s')
  end.

Definition snoc (s : string) (c : ascii) : string := s ++ String c "".

(** [s.split(sep)] for a one-character separator; [cur] is the segment being
    read. *)
Fixpoint split_from (sep : ascii) (cur s : string) : list string :=
  match s with
  | EmptyString => [cur]
  | String c s' =>
      if Ascii.eqb c sep then cur :: split_from sep "" s'
      else split_from sep (snoc cur c) s'
  end.

Definition split (sep : ascii) (s : string) : list string :=
  split_from sep "" s.

Definition flush (cur : string) : list string :=
  match cur with
  | EmptyString => []
  | _ => [cur]
  end.

(** [s.split()]: maximal runs of characters that are not white space. *)
Fixpoint split_ws_from (cur s : string) : list string :=
  match s with
  | EmptyString => flush cur
  | String c s' =>
      if isspace c then (flush cur ++ split_ws_from "" s')%list
      else split_ws_from (snoc cur c) s'
  end.

Definition split_ws (s : string) : list string := split_ws_from "" s.

(** [l[-1]] on a list that [split] returned (never empty). *)
Definition last_item (l : list string) : string := List.last l "".

(** [sep.join(l)]. *)
Definition join (sep : string) (l : list string) : string :=
  String.concat sep l.

Fixpoint drop_last (s : string) : string :=
  match s with
  | EmptyString => EmptyString
  | String c EmptyString => EmptyString
  | String c s' => String c (drop_last s')
  end.

(** [s[1:-1]]. *)
Definition slice_1_m1 (s : string) : string :=
  match s with
  | EmptyString => EmptyString
  | String _ s' => drop_last s'
  end.

(** [os.path.join(a, b)] of posixpath, two arguments. *)
Definition os_path_join (a b : string) : string :=
  match b with
  | String "/" _ => b
  | _ =>
      match a with
      | EmptyString => b
      | _ => if Ascii.eqb (List.last (list_ascii_of_string a) "/"%char) "/"
             then a ++ b else a ++ "/" ++ b
      end
  end.

(** [list.sort()] on strings: the order is the code point order, which is
    total, so the sorted list does not depend on the algorithm. *)
Fixpoint insert_sorted (x : string) (l : list string) : list string :=
  match l with
  | [] => [x]
  | y :: l' => if String.leb x y then x :: l else y :: insert_sorted x l'
  end.

Fixpoint sort (l : list string) : list string :=
  match l with
  | [] => []
  | x :: l' => insert_sorted x (sort l')
  end.

(** ** Regular expressions, as far as the sources use them *)

Inductive atom : Type :=
| Lit (c : ascii)      (* an escaped or plain literal character *)
| Digit.               (* \d *)

Inductive item : Type :=
| One (a : atom)
| OneOrMore (a : atom). (* a+ *)

Definition regex : Type := list item.

Definition atom_matches (a : atom) (c : ascii) : bool :=
  match a with
  | Lit c' => Ascii.eqb c c'
  | Digit => isdigit c
  end.

(** Does [r] match a prefix of [s]? *)
Fixpoint match_here (r : regex) (s : string) : bool :=
  match r with
  | [] => true
  | One a :: r' =>
      match s with
      | String c s' => atom_matches a c && match_here r' s'
      | EmptyString => false
      end
  | OneOrMore a :: r' =>
      let fix more (s : string) : bool :=
        match_here r' s
        || match s with
           | String c s' => atom_matches a c && more s'
           | EmptyString => false
           end in
      match s with
      | String c s' => atom_matches a c && more s'
      | EmptyString => false
      end
  end.

(** [re.search(r, s)], used for its truth value only. *)
Fixpoint re_search (r : regex) (s : string) : bool :=
  match_here r s
  || match s with
     | String _ s' => re_search r s'
     | EmptyString => false
     end.

(** ** [dict]: insertion ordered, a later value for a key replaces the
    earlier one in place. *)

Section Dict.
Variable V : Type.

Definition dict : Type := list (string * V).

Fixpoint get (d : dict) (k : string) : option V :=
  match d with
  | [] => None
  | (k', v) :: d' => if String.eqb k k' then Some v else get d' k
  end.

Definition contains (d : dict) (k : string) : bool :=
  match get d k with Some _ => true | None => false end.

Fixpoint setitem (d : dict) (k : string) (v : V) : dict :=
  match d with
  | [] => [(k, v)]
  | (k', v') :: d' =>
      if String.eqb k k' then (k', v) :: d' else (k', v') :: setitem d' k v
  end.

(** [dict(pairs)]. *)
Definition of_pairs (pairs : list (string * V)) : dict :=
  fold_left (fun d kv => setitem d (fst kv) (snd kv)) pairs [].

(** [list(d)]. *)
Definition keys (d : dict) : list string := map fst d.

(** For the statements: the value of the last pair of [pairs] with key
    [k], [acc] if there is none. *)
Fixpoint last_value (pairs : list (string * V)) (k : string) (acc : option V)
  : option V :=
  match pairs with
  | [] => acc
  | (k', v) :: rest =>
      last_value rest k (if String.eqb k k' then Some v else acc)
  end.
End Dict.

End Py.

Definition bytes : Type := list Byte.byte.

(* ================================================================== *)
(** * extractors/lenovo_iso.py *)

Module LenovoIso.

Import Py.
Open Scope string_scope.

(** [BIOS_CAPSULE_EXTENSION = r'\.FL\d+'] *)
Definition BIOS_CAPSULE_EXTENSION : regex :=
  [One (Lit "."); One (Lit "F"); One (Lit "L"); OneOrMore Digit].

Definition LBA_BLOCK_SIZE : N := 512.

(** ** The FATtools interface, as far as the module calls it *)

(** One item of [Dirtable.iterator()]. *)
Record DirEntry : Type := {
  IsDir : bool;
  IsLfn : bool;
  Name : string;
  LongName : string
}.

(** A file of the volume as FATtools presents it: the size recorded in its
    directory entry ([File.filesize]) and the bytes that reading it yields. *)
Record FatFile : Type := {
  filesize : N;
  stream : bytes
}.

(** A handle on a file, with its own read position. *)
Record Handle : Type := {
  File : FatFile;
  pos : nat
}.

(** [Handle.read(size)]: the rest of the stream when [size] is negative, at
    most [size] bytes of it otherwise; the position advances by what was
    read. *)
Definition Handle_read (h : Handle) (size : Z) : Handle * bytes :=
  let rest := skipn (pos h) (stream (File h)) in
  let out := if (size <? 0)%Z then rest else firstn (Z.to_nat size) rest in
  ({| File := File h; pos := pos h + List.length out |}, out).

(** A mounted volume: [opendir] gives the listing of a directory ([None]
    where FATtools returns [None]) and [lookup] the file at a path. *)
Record Volume : Type := {
  opendir : string -> option (list DirEntry);
  lookup : string -> option FatFile
}.

(** [Volume.open(path)]: a new handle at the start of the file; handles do
    not share their position. *)
Definition vol_open (v : Volume) (path : string) : option Handle :=
  option_map (fun f => {| File := f; pos := 0 |}) (lookup v path).

(** ** The partition table of kaitai's [MbrPartitionTable] *)

Record PartitionEntry : Type := { lba_start : N }.

Record MbrPartitionTable : Type := { partitions : list PartitionEntry }.

(** ** What the module takes from its environment *)

Record Env : Type := {
  os_path_isfile : string -> bool;
  (** [et.extract(open(iso_path, 'rb'))['data']]: the boot image. *)
  et_extract : string -> bytes;
  (** [MbrPartitionTable.from_bytes] *)
  from_bytes : bytes -> MbrPartitionTable;
  (** [Volume.vopen] *)
  vopen : bytes -> Volume
}.

(** ** [_find_candidate_capsules] *)

Definition f_name (file : DirEntry) : string :=
  if IsLfn file then LongName file else Name file.

(** The body of the loop over the files of one sub-directory [d]. *)
Definition candidates_in (top_folder d : string) (files : list DirEntry)
  : list string :=
  map (fun file => join "/" [top_folder; d; f_name file])
      (filter (fun file => re_search BIOS_CAPSULE_EXTENSION (f_name file))
              files).

(** The loop [for d in subdirs]; [file_info] is the list built so far. *)
Fixpoint scan_subdirs (volume : Volume) (top_folder : string)
  (subdirs : list string) (file_info : list string) : result (list string) :=
  match subdirs with
  | [] => Ok file_info
  | d :: rest =>
      if String.eqb d "." || String.eqb d ".."
      then scan_subdirs volume top_folder rest file_info
      else
        files <- of_option (opendir volume (join "/" [top_folder; d]))
                           AttributeError ;;
        scan_subdirs volume top_folder rest
          (file_info ++ candidates_in top_folder d files)%list
  end.

Definition _find_candidate_capsules (volume : Volume) : result (list string) :=
  let top_folder := "FLASH" in
  top <- of_option (opendir volume top_folder) AttributeError ;;
  let subdirs := map Name (filter IsDir top) in
  file_info <- scan_subdirs volume top_folder subdirs [] ;;
  Ok (sort file_info).

(** ** [LenovoISOCapsule] *)

Record LenovoISOCapsule : Type := {
  volume_handle : Volume;
  capsule_path : string;
  capsule_handle : option Handle   (* set by [__enter__] *)
}.

Definition Capsule__init__ (volume_handle : Volume) (capsule_path : string)
  : LenovoISOCapsule :=
  {| volume_handle := volume_handle;
     capsule_path := capsule_path;
     capsule_handle := None |}.

Definition Capsule__enter__ (self : LenovoISOCapsule)
  : result LenovoISOCapsule :=
  h <- of_option (vol_open (volume_handle self) (capsule_path self))
                 AttributeError ;;
  Ok {| volume_handle := volume_handle self;
        capsule_path := capsule_path self;
        capsule_handle := Some h |}.

(** Methods take the object and return it with their result. *)
Definition read (self : LenovoISOCapsule) (size : Z)
  : LenovoISOCapsule * result bytes :=
  match capsule_handle self with
  | None => (self, Raise AttributeError)
  | Some h =>
      let (h', out) := Handle_read h size in
      ({| volume_handle := volume_handle self;
          capsule_path := capsule_path self;
          capsule_handle := Some h' |}, Ok out)
  end.

Definition size (self : LenovoISOCapsule) : LenovoISOCapsule * result N :=
  match vol_open (volume_handle self) (capsule_path self) with
  | None => (self, Raise AttributeError)
  | Some fopen => (self, Ok (filesize (File fopen)))
  end.

(** ** [FileParser] *)

Record FileParser : Type := {
  iso_path : string;
  volume : Volume;
  capsules : dict string
}.

Definition __init__ (E : Env) (iso_path : string) : result string :=
  if os_path_isfile E iso_path then Ok iso_path else Raise FileNotFoundError.

Definition basename (path : string) : string := last_item (split "/" path).

Definition __enter__ (E : Env) (iso_path : string) : result FileParser :=
  let data := et_extract E iso_path in
  let mbr := from_bytes E data in
  p0 <- of_option (nth_error (partitions mbr) 0) IndexError ;;
  if (lba_start p0 =? 0)%N
     || existsb (fun p => negb (lba_start p =? 0)%N) (skipn 1 (partitions mbr))
  then Raise ValueError
  else
    let part_start_offset := (lba_start p0 * LBA_BLOCK_SIZE)%N in
    let partition_buffer := skipn (N.to_nat part_start_offset) data in
    let volume := vopen E partition_buffer in
    paths <- _find_candidate_capsules volume ;;
    Ok {| iso_path := iso_path;
          volume := volume;
          capsules := of_pairs (map (fun path => (basename path, path)) paths)
       |}.

Definition list_capsules (self : FileParser) : list string :=
  keys (capsules self).

Definition open (self : FileParser) (capsule_name : string)
  : FileParser * result LenovoISOCapsule :=
  if negb (contains (capsules self) capsule_name)
  then (self, Raise KeyError)
  else
    match get (capsules self) capsule_name with
    | Some capsule_path => (self, Ok (Capsule__init__ (volume self) capsule_path))
    | None => (self, Raise KeyError)
    end.

End LenovoIso.

(* ================================================================== *)
(** * extractors/lenovo_exe.py *)

Module LenovoExe.

Import Py.
Open Scope string_scope.

(** [BIOS_CAPSULE_EXTENSION = r'\.FL\d+'] *)
Definition BIOS_CAPSULE_EXTENSION : regex :=
  [One (Lit "."); One (Lit "F"); One (Lit "L"); OneOrMore Digit].

(** ** The operating system and innoextract *)

(** [subprocess.CompletedProcess], the two attributes read; [stdout] holds
    the bytes the process wrote. *)
Record CompletedProcess : Type := {
  returncode : Z;
  stdout : bytes
}.

(** The files on disk: the content at a path, if there is a file. *)
Definition FileSystem : Type := string -> option bytes.

Record TemporaryDirectory : Type := { name : string }.

Record Env : Type := {
  os_path_isfile : string -> bool;
  shutil_which : string -> option string;
  (** the directory [tempfile.TemporaryDirectory(prefix='uefiextract_')]
      creates *)
  mkdtemp : TemporaryDirectory;
  (** [innoextract -l filename] *)
  innoextract_l : string -> CompletedProcess;
  (** [b.decode('utf-8')]: the text, or [None] where the bytes are no UTF-8
      and the call raises [UnicodeDecodeError]. *)
  decode_utf8 : bytes -> option string;
  (** [innoextract --output-dir out_dir -I capsule_path filename]: the exit
      status and the files it leaves on disk. *)
  innoextract_I :
    string -> string -> string -> FileSystem -> CompletedProcess * FileSystem
}.

(** A binary file object opened for reading. *)
Record FileObject : Type := {
  contents : bytes;
  position : nat
}.

(** [f.read(size)]: everything that is left for [size = -1], at most [size]
    bytes for [size >= 0], and [ValueError] for any other size. *)
Definition file_read (f : FileObject) (size : Z)
  : FileObject * result bytes :=
  if (size <? -1)%Z then (f, Raise ValueError)
  else
    let rest := skipn (position f) (contents f) in
    let out := if (size <? 0)%Z then rest else firstn (Z.to_nat size) rest in
    ({| contents := contents f; position := position f + List.length out |},
     Ok out).

(** The values of [whence]: 0, 1 and 2. *)
Inductive whence : Type :=
| SEEK_SET
| SEEK_CUR
| SEEK_END.

(** [f.seek(offset, whence)] for an offset that is not negative: from the
    start, from the position, from the end. *)
Definition file_seek (f : FileObject) (offset : nat) (w : whence)
  : FileObject :=
  {| contents := contents f;
     position := match w with
                 | SEEK_SET => offset
                 | SEEK_CUR => position f + offset
                 | SEEK_END => List.length (contents f) + offset
                 end |}.

Definition file_tell (f : FileObject) : nat := position f.

(** ** [_find_candidate_capsules] *)

(** The loop over the lines of the listing; [paths] is the list built so
    far.  [line.split()[1]] raises [IndexError] on a line with fewer than
    two fields. *)
Fixpoint scan_lines (lines : list string) (paths : list string)
  : result (list string) :=
  match lines with
  | [] => Ok paths
  | line :: rest =>
      if re_search BIOS_CAPSULE_EXTENSION line then
        field <- of_option (nth_error (split_ws line) 1) IndexError ;;
        scan_lines rest (paths ++ [slice_1_m1 field])%list
      else scan_lines rest paths
  end.

Definition _find_candidate_capsules (E : Env) (filename : string)
  : result (list string) :=
  let inno_list_result := innoextract_l E filename in
  if negb (returncode inno_list_result =? 0)%Z
  then Raise (RuntimeError (Some (returncode inno_list_result)))
  else
    text <- of_option (decode_utf8 E (stdout inno_list_result))
                      UnicodeDecodeError ;;
    scan_lines (split "010"%char text) [].

(** ** [_extract_capsule] *)

Definition _extract_capsule (E : Env) (fs : FileSystem)
  (filename capsule_path capsule_out_dir : string)
  : FileSystem * result string :=
  let (inno_extract_result, fs') :=
    innoextract_I E capsule_out_dir capsule_path filename fs in
  if negb (returncode inno_extract_result =? 0)%Z
  then (fs', Raise (RuntimeError (Some (returncode inno_extract_result))))
  else (fs', Ok (os_path_join capsule_out_dir capsule_path)).

(** ** [LenovoExeCapsule] *)

Record LenovoExeCapsule : Type := {
  capsule_exe_path : string;
  capsule_path : string;
  capsule_tempdir : TemporaryDirectory;
  capsule_handle : option FileObject   (* set by [__enter__] *)
}.

Definition Capsule__init__ (exe_path capsule_path : string)
  (tempdir : TemporaryDirectory) : LenovoExeCapsule :=
  {| capsule_exe_path := exe_path;
     capsule_path := capsule_path;
     capsule_tempdir := tempdir;
     capsule_handle := None |}.

Definition set_handle (self : LenovoExeCapsule) (f : FileObject)
  : LenovoExeCapsule :=
  {| capsule_exe_path := capsule_exe_path self;
     capsule_path := capsule_path self;
     capsule_tempdir := capsule_tempdir self;
     capsule_handle := Some f |}.

Definition Capsule__enter__ (E : Env) (fs : FileSystem)
  (self : LenovoExeCapsule) : FileSystem * result LenovoExeCapsule :=
  match _extract_capsule E fs (capsule_exe_path self) (capsule_path self)
          (name (capsule_tempdir self)) with
  | (fs', Raise e) => (fs', Raise e)
  | (fs', Ok extracted_capsule_path) =>
      match fs' extracted_capsule_path with
      | None => (fs', Raise FileNotFoundError)
      | Some content =>
          (fs', Ok (set_handle self {| contents := content; position := 0 |}))
      end
  end.

(** Methods take the object and return it with their result. *)
Definition read (self : LenovoExeCapsule) (size : Z)
  : LenovoExeCapsule * result bytes :=
  match capsule_handle self with
  | None => (self, Raise AttributeError)
  | Some f =>
      match file_read f size with
      | (f', Ok out) => (set_handle self f', Ok out)
      | (_, Raise e) => (self, Raise e)
      end
  end.

Definition size (self : LenovoExeCapsule) : LenovoExeCapsule * result nat :=
  match capsule_handle self with
  | None => (self, Raise AttributeError)
  | Some f =>
      let f1 := file_seek f 0 SEEK_END in
      let size := file_tell f1 in
      let f2 := file_seek f1 0 SEEK_SET in
      (set_handle self f2, Ok size)
  end.

(** ** [FileParser] *)

Record FileParser : Type := {
  exe_path : string;
  tempdir : TemporaryDirectory;
  capsules : dict string
}.

(** [__init__] leaves the path and the temporary directory. *)
Definition __init__ (E : Env) (exe_path : string)
  : result (string * TemporaryDirectory) :=
  let tempdir := mkdtemp E in
  if negb (os_path_isfile E exe_path) then Raise FileNotFoundError
  else
    match shutil_which E "innoextract" with
    | None => Raise (RuntimeError None)
    | Some _ => Ok (exe_path, tempdir)
    end.

Definition basename (path : string) : string := last_item (split "/" path).

Definition __enter__ (E : Env) (exe_path : string)
  (tempdir : TemporaryDirectory) : result FileParser :=
  paths <- _find_candidate_capsules E exe_path ;;
  Ok {| exe_path := exe_path;
        tempdir := tempdir;
        capsules := of_pairs (map (fun path => (basename path, path)) paths)
     |}.

Definition list_capsules (self : FileParser) : list string :=
  keys (capsules self).

Definition open (self : FileParser) (capsule_name : string)
  : FileParser * result LenovoExeCapsule :=
  if negb (contains (capsules self) capsule_name)
  then (self, Raise KeyError)
  else
    match get (capsules self) capsule_name with
    | Some capsule_path =>
        (self, Ok (Capsule__init__ (exe_path self) capsule_path (tempdir self)))
    | None => (self, Raise KeyError)
    end.

End LenovoExe.

(* ================================================================== *)
(** * uefi-extract.py *)

Module UefiExtract.

Import Py.
Open Scope string_scope.

(** A node of the tree that uefi_firmware builds.  [iterate_objects()] of a
    node lists, for each child in order, a dictionary with the child's class
    name under ['type'], its GUID under ['guid'] and the child under
    ['_self']; a key may be absent.  [attrs_type] is [attrs.get('type')] and
    [data] the attribute the caller writes out. *)
#[local] Unset Elimination Schemes.
Inductive FirmwareObject : Type :=
| mkObject (info_type info_guid : option string) (attrs_type : option Z)
           (data : bytes) (objects : list FirmwareObject).
#[local] Set Elimination Schemes.

Definition info_type (o : FirmwareObject) : option string :=
  let (t, _, _, _, _) := o in t.
Definition info_guid (o : FirmwareObject) : option string :=
  let (_, g, _, _, _) := o in g.
Definition attrs_type (o : FirmwareObject) : option Z :=
  let (_, _, a, _, _) := o in a.
Definition data (o : FirmwareObject) : bytes :=
  let (_, _, _, d, _) := o in d.
Definition objects (o : FirmwareObject) : list FirmwareObject :=
  let (_, _, _, _, l) := o in l.

(** [obj.get(key, '')] *)
Definition get_or_empty (v : option string) : string :=
  match v with Some s => s | None => "" end.

(** [x in guids] *)
Definition mem (x : string) (guids : list string) : bool :=
  existsb (String.eqb x) guids.

(** The test of [find_file_by_guid_core] on one listed child. *)
Definition is_wanted_file (guids : list string) (obj : FirmwareObject) : bool :=
  String.eqb (get_or_empty (info_type obj)) "FirmwareFile"
  && mem (get_or_empty (info_guid obj)) guids.

Fixpoint find_file_by_guid_core (firmware_tree : FirmwareObject)
  (guids : list string) : list (string * FirmwareObject) :=
  match firmware_tree with
  | mkObject _ _ _ _ objs =>
      flat_map
        (fun obj =>
           (if is_wanted_file guids obj
            then [(get_or_empty (info_guid obj), obj)] else [])
           ++ find_file_by_guid_core obj guids)%list
        objs
  end.

Definition find_file_by_guid (firmware_tree : FirmwareObject)
  (guids : list string) : list (string * FirmwareObject) :=
  let guids := map lower guids in
  find_file_by_guid_core firmware_tree guids.

(** [attrs.get('type') == 16] *)
Definition is_PE32 (o : FirmwareObject) : bool :=
  match attrs_type o with
  | Some t => (t =? 16)%Z
  | None => false
  end.

Fixpoint find_PE32 (firmware_tree : FirmwareObject) : list FirmwareObject :=
  if is_PE32 firmware_tree then [firmware_tree]
  else
    match firmware_tree with
    | mkObject _ _ _ _ objs => flat_map find_PE32 objs
    end.

(** [uefi_firmware.AutoParser(file_content)]: its [type()] and what
    [parse()] returns. *)
Record UefiParser : Type := {
  parser_type : string;
  parse : FirmwareObject
}.

(** The dictionary [find_PEs] returns: GUID to the list of images. *)
Definition MatchResult : Type := dict (list FirmwareObject).

(** One round of the loop [for guid, file in found_files]. *)
Definition add_found (pes : MatchResult) (found : string * FirmwareObject)
  : MatchResult :=
  let (guid, file) := found in
  let pes := if negb (contains pes guid) then setitem pes guid [] else pes in
  match get pes guid with
  | Some l => setitem pes guid (l ++ find_PE32 file)%list
  | None => pes
  end.

Definition find_PEs (AutoParser : bytes -> UefiParser) (file_content : bytes)
  (guids : list string) : result MatchResult :=
  let uefi_parser := AutoParser file_content in
  if String.eqb (parser_type uefi_parser) "unknown"
  then Raise NotImplementedError
  else
    let firmware := parse uefi_parser in
    let found_files := find_file_by_guid firmware guids in
    if (List.length found_files =? 0)%nat then Raise FileNotFoundError
    else Ok (fold_left add_found found_files []).

End UefiExtract.

(* ================================================================== *)
(** * The capsule naming pattern as the specification words it *)

Module Pattern.

Import Py.
Open Scope string_scope.




End Pattern.


(* ================================================================== *)
(** * The enumerations the backends filter *)

Module Enumeration.

Import Py.
Open Scope string_scope.



Definition quoted (s : string) : string :=
  String "034"%char s ++ String "034"%char "".



End Enumeration.

(* ================================================================== *)
(** * The supported disk layout *)

Module Layout.

(** The layout the backend supports, for a table of four entries. *)
Definition single_first_partition (p0 p1 p2 p3 : LenovoIso.PartitionEntry)
  : Prop :=
  LenovoIso.lba_start p0 <> 0%N
  /\ LenovoIso.lba_start p1 = 0%N
  /\ LenovoIso.lba_start p2 = 0%N
  /\ LenovoIso.lba_start p3 = 0%N.

(** The bytes of the boot image from [lba_start * 512] to its end. *)
Definition payload (p0 : LenovoIso.PartitionEntry) (boot_image : bytes)
  : bytes :=
  skipn (N.to_nat (LenovoIso.lba_start p0 * 512)) boot_image.

End Layout.

(* ================================================================== *)
(** * Traversals of the firmware object tree *)

Module Traversal.

Import Py UefiExtract.
Open Scope string_scope.

(** Induction on a tree with the hypothesis on every child. *)
Fixpoint FirmwareObject_ind (P : FirmwareObject -> Prop)
  (step : forall t g a d objs, Forall P objs -> P (mkObject t g a d objs))
  (o : FirmwareObject) : P o :=
  match o with
  | mkObject t g a d objs =>
      step t g a d objs
        ((fix children (l : list FirmwareObject) : Forall P l :=
            match l with
            | [] => Forall_nil P
            | x :: rest =>
                Forall_cons x (FirmwareObject_ind step x) (children rest)
            end) objs)
  end.

(** The nodes of a tree in pre-order, depth first, children in their order. *)
Fixpoint preorder (t : FirmwareObject) : list FirmwareObject :=
  match t with
  | mkObject _ _ _ _ objs => t :: flat_map preorder objs
  end.

(** The nodes below the root, in the same order. *)
Definition below (t : FirmwareObject) : list FirmwareObject :=
  flat_map preorder (objects t).

(** The pre-order traversal that does not go below a PE32 image. *)
Fixpoint preorder_to_images (t : FirmwareObject) : list FirmwareObject :=
  if is_PE32 t then [t]
  else
    match t with
    | mkObject _ _ _ _ objs => t :: flat_map preorder_to_images objs
    end.

(** No PE32 image of the tree has a PE32 image below it. *)
Fixpoint images_are_leaves (t : FirmwareObject) : bool :=
  match t with
  | mkObject _ _ _ _ objs =>
      (if is_PE32 t
       then forallb (fun n => negb (is_PE32 n)) (flat_map preorder objs)
       else true)
      && forallb images_are_leaves objs
  end.

(** The match of the specification: the type tag is File and the GUID in
    lower case is a member of the targets in lower case. *)
Definition is_File (n : FirmwareObject) : bool :=
  String.eqb (get_or_empty (info_type n)) "FirmwareFile".

Definition qualifies (targets : list string) (n : FirmwareObject) : bool :=
  is_File n
  && mem (lower (get_or_empty (info_guid n))) (map lower targets).

(** What a found file is paired with. *)
Definition tagged (n : FirmwareObject) : string * FirmwareObject :=
  (get_or_empty (info_guid n), n).

(** The images found under the files of [found] that carry the GUID [g], in
    the order of [found]. *)
Definition images_for (g : string) (found : list (string * FirmwareObject))
  : list FirmwareObject :=
  flat_map (fun x => find_PE32 (snd x))
           (filter (fun x => String.eqb g (fst x)) found).

End Traversal.

(* ================================================================== *)
(** * Concrete firmware trees *)

Module Trees.

Import Py UefiExtract.
Open Scope string_scope.

Definition node (class : string) (objs : list FirmwareObject) : FirmwareObject :=
  mkObject (Some class) (Some "") None [] objs.

Definition file (guid : string) (objs : list FirmwareObject) : FirmwareObject :=
  mkObject (Some "FirmwareFile") (Some guid) (Some 7%Z) [] objs.

(** A section of type 16 (PE32) with payload [d]. *)
Definition image (d : bytes) (objs : list FirmwareObject) : FirmwareObject :=
  mkObject (Some "FirmwareFileSystemSection") (Some "") (Some 16%Z) d objs.

Definition section (objs : list FirmwareObject) : FirmwareObject :=
  mkObject (Some "FirmwareFileSystemSection") (Some "") (Some 25%Z) [] objs.

Definition guid_1 : string := "11111111-2222-3333-4444-555555555555".
Definition guid_2 : string := "66666666-7777-8888-9999-000000000000".
Definition guid_lower : string := "abcdef01-2345-6789-abcd-ef0123456789".
Definition guid_upper : string := "ABCDEF01-2345-6789-ABCD-EF0123456789".

(** One file of [guid_1] with two images, one file of [guid_2] with one. *)
Definition scenario_tree : FirmwareObject :=
  node "FirmwareVolume"
    [ node "FirmwareFileSystem"
        [ file guid_1 [image [Byte.x01] []; section [image [Byte.x02] []]];
          file guid_2 [image [Byte.x03] []] ] ].

(** The same file, its GUID written in lower and in upper case. *)
Definition lower_case_tree : FirmwareObject :=
  node "FirmwareVolume" [file guid_lower [image [Byte.x01] []]].

Definition upper_case_tree : FirmwareObject :=
  node "FirmwareVolume" [file guid_upper [image [Byte.x01] []]].

(** A tree that is one file. *)
Definition lone_file : FirmwareObject := file guid_1 [image [Byte.x01] []].

(** A file whose image has an image below it. *)
Definition inner_image : FirmwareObject := image [Byte.x02] [].
Definition outer_image : FirmwareObject := image [Byte.x01] [inner_image].
Definition nested_file : FirmwareObject := file guid_1 [outer_image].

(** A file without images. *)
Definition bare_tree : FirmwareObject :=
  node "FirmwareVolume" [file guid_1 [section []]].

(** A parser that recognises the bytes and returns [t]. *)
Definition parser_of (t : FirmwareObject) : bytes -> UefiParser :=
  fun _ => {| parser_type := "uefi_volume"; parse := t |}.

End Trees.

(* ================================================================== *)
(** * Concrete containers *)

Module Examples.

Import Py.
Open Scope string_scope.

Definition entry (is_dir : bool) (short long : string) : LenovoIso.DirEntry :=
  {| LenovoIso.IsDir := is_dir;
     LenovoIso.IsLfn := negb (String.eqb long "");
     LenovoIso.Name := short;
     LenovoIso.LongName := long |}.

Definition file_of (content : bytes) : LenovoIso.FatFile :=
  {| LenovoIso.filesize := N.of_nat (List.length content);
     LenovoIso.stream := content |}.

Definition dots : list LenovoIso.DirEntry :=
  [entry true "." ""; entry true ".." ""].

(** A volume with [FLASH/SUB1/BIOS.FL1] and [FLASH/SUB2/readme.txt]. *)
Definition scenario_volume : LenovoIso.Volume :=
  {| LenovoIso.opendir := fun path =>
       if String.eqb path "FLASH"
       then Some (dots ++ [entry true "SUB1" ""; entry true "SUB2" ""])%list
       else if String.eqb path "FLASH/SUB1"
       then Some (dots ++ [entry false "BIOS.FL1" ""])%list
       else if String.eqb path "FLASH/SUB2"
       then Some (dots ++ [entry false "README.TXT" "readme.txt"])%list
       else None;
     LenovoIso.lookup := fun path =>
       if String.eqb path "FLASH/SUB1/BIOS.FL1"
       then Some (file_of [Byte.x4d; Byte.x5a; Byte.x00])
       else None |}.


Definition one_partition (start : N) : LenovoIso.MbrPartitionTable :=
  {| LenovoIso.partitions :=
       [ {| LenovoIso.lba_start := start |}; {| LenovoIso.lba_start := 0 |};
         {| LenovoIso.lba_start := 0 |}; {| LenovoIso.lba_start := 0 |} ] |}.

Definition no_volume : LenovoIso.Volume :=
  {| LenovoIso.opendir := fun _ => None; LenovoIso.lookup := fun _ => None |}.

(** An image whose boot image of 1024 bytes has one partition at sector 1:
    the 512 bytes from there on mount as [v], anything else does not
    mount. *)
Definition iso_env (v : LenovoIso.Volume) : LenovoIso.Env :=
  {| LenovoIso.os_path_isfile := fun _ => true;
     LenovoIso.et_extract := fun _ => repeat Byte.x00 1024;
     LenovoIso.from_bytes := fun _ => one_partition 1;
     LenovoIso.vopen := fun payload =>
       if (List.length payload =? 512)%nat then v else no_volume |}.

(** [b.decode('utf-8')] for the texts that a string here holds: a byte
    below 128 is its code point, and the bytes 194 or 195 with a byte from
    128 to 191 are the code points from 128 to 255.  The installers of the
    examples print no other byte. *)
Fixpoint utf8 (b : bytes) : option string :=
  match b with
  | [] => Some ""
  | x :: rest =>
      let n := Byte.to_nat x in
      if (n <? 128)%nat
      then option_map (String (ascii_of_byte x)) (utf8 rest)
      else
        match rest with
        | y :: rest' =>
            let m := Byte.to_nat y in
            if (((n =? 194) || (n =? 195)) && (128 <=? m) && (m <=? 191))%nat
            then option_map
                   (String (ascii_of_nat ((n - 192) * 64 + (m - 128))))
                   (utf8 rest')
            else None
        | [] => None
        end
  end.

(** The text that innoextract printed for the lines [lines]. *)
Definition listing_text (lines : list string) : string :=
  join (String "010"%char "") lines.

Definition listing (lines : list string) : LenovoExe.CompletedProcess :=
  {| LenovoExe.returncode := 0;
     LenovoExe.stdout := list_byte_of_string (listing_text lines) |}.

(** An installer whose listing is [lines] and whose extraction writes
    [content] at the place asked for. *)
Definition exe_env (lines : list string) (content : bytes) : LenovoExe.Env :=
  {| LenovoExe.os_path_isfile := fun _ => true;
     LenovoExe.shutil_which := fun _ => Some "/usr/bin/innoextract";
     LenovoExe.mkdtemp := {| LenovoExe.name := "/tmp/uefiextract_0" |};
     LenovoExe.innoextract_l := fun _ => listing lines;
     LenovoExe.decode_utf8 := utf8;
     LenovoExe.innoextract_I := fun out_dir capsule_path _ fs =>
       ({| LenovoExe.returncode := 0; LenovoExe.stdout := [] |},
        fun p => if String.eqb p (os_path_join out_dir capsule_path)
                 then Some content else fs p) |}.

Definition no_files : LenovoExe.FileSystem := fun _ => None.

(** The containers that entering the examples gives. *)
Definition scenario_iso : LenovoIso.FileParser :=
  {| LenovoIso.iso_path := "bios.iso";
     LenovoIso.volume := scenario_volume;
     LenovoIso.capsules := [("BIOS.FL1", "FLASH/SUB1/BIOS.FL1")] |}.


(** A line of [innoextract -l]: the quoted path and the size. *)
Definition listing_line (path : string) : string :=
  " - " ++ Enumeration.quoted path ++ " (8 MiB)".

Definition scenario_lines : list string :=
  ["Listing BIOS Update - setup data version 5.5.0";
   listing_line "app/BIOS.FL1"; listing_line "app/readme.txt"; ""].

Definition scenario_exe : LenovoExe.FileParser :=
  {| LenovoExe.exe_path := "bios.exe";
     LenovoExe.tempdir := {| LenovoExe.name := "/tmp/uefiextract_0" |};
     LenovoExe.capsules := [("BIOS.FL1", "app/BIOS.FL1")] |}.

(** An installer with the entries [entries]: the listing has one line per
    entry, and extraction writes the entry asked for, if there is one. *)
Definition archive_env (entries : list (string * bytes)) : LenovoExe.Env :=
  {| LenovoExe.os_path_isfile := fun _ => true;
     LenovoExe.shutil_which := fun _ => Some "/usr/bin/innoextract";
     LenovoExe.mkdtemp := {| LenovoExe.name := "/tmp/uefiextract_0" |};
     LenovoExe.innoextract_l := fun _ =>
       listing (map (fun e => listing_line (fst e)) entries);
     LenovoExe.decode_utf8 := utf8;
     LenovoExe.innoextract_I := fun out_dir capsule_path _ fs =>
       ({| LenovoExe.returncode := 0; LenovoExe.stdout := [] |},
        match find (fun e => String.eqb (fst e) capsule_path) entries with
        | Some e => fun p => if String.eqb p (os_path_join out_dir (fst e))
                             then Some (snd e) else fs p
        | None => fs
        end) |}.

(** An installer whose capsule has a space in its name. *)
Definition spaced_entries : list (string * bytes) :=
  [("app/My BIOS.FL1", [Byte.x4d; Byte.x5a; Byte.x00])].

Definition spaced_exe : LenovoExe.FileParser :=
  {| LenovoExe.exe_path := "bios.exe";
     LenovoExe.tempdir := {| LenovoExe.name := "/tmp/uefiextract_0" |};
     LenovoExe.capsules := [("M", "app/M")] |}.

(** Two sub-directories holding a capsule of the same name. *)
Definition twin_volume : LenovoIso.Volume :=
  {| LenovoIso.opendir := fun path =>
       if String.eqb path "FLASH"
       then Some (dots ++ [entry true "B" ""; entry true "A" ""])%list
       else if String.eqb path "FLASH/A"
       then Some (dots ++ [entry false "X.FL1" ""])%list
       else if String.eqb path "FLASH/B"
       then Some (dots ++ [entry false "X.FL1" ""])%list
       else None;
     LenovoIso.lookup := fun path =>
       if String.eqb path "FLASH/A/X.FL1" then Some (file_of [Byte.x0a])
       else if String.eqb path "FLASH/B/X.FL1"
       then Some (file_of [Byte.x0b; Byte.x0b])
       else None |}.

Definition twin_iso : LenovoIso.FileParser :=
  {| LenovoIso.iso_path := "bios.iso";
     LenovoIso.volume := twin_volume;
     LenovoIso.capsules := [("X.FL1", "FLASH/B/X.FL1")] |}.

Definition twin_lines : list string :=
  [listing_line "app/A/X.FL1"; listing_line "app/B/X.FL1"].

Definition twin_exe : LenovoExe.FileParser :=
  {| LenovoExe.exe_path := "bios.exe";
     LenovoExe.tempdir := {| LenovoExe.name := "/tmp/uefiextract_0" |};
     LenovoExe.capsules := [("X.FL1", "app/B/X.FL1")] |}.

End Examples.

(* ================================================================== *)
(** * More Python built-ins: [os.path.split], [in] on strings *)

Module PyPath.

Import Py.
Open Scope string_scope.

(** [s.startswith(pre)]. *)
Fixpoint startswith (pre s : string) : bool :=
  match pre with
  | EmptyString => true
  | String a pre' =>
      match s with
      | String b s' => Ascii.eqb a b && startswith pre' s'
      | EmptyString => false
      end
  end.

(** [needle in hay] on strings. *)
Fixpoint str_in (needle hay : string) : bool :=
  startswith needle hay
  || match hay with
     | String _ hay' => str_in needle hay'
     | EmptyString => false
     end.

(** [(p[:i], p[i:])] for [i = p.rfind('/') + 1]. *)
Fixpoint rcut (p : string) : string * string :=
  match p with
  | EmptyString => ("", "")
  | String c s =>
      let (h, t) := rcut s in
      match h with
      | EmptyString =>
          if Ascii.eqb c "/" then (String c "", t) else ("", String c t)
      | _ => (String c h, t)
      end
  end.

(** [s.rstrip('/')]. *)
Fixpoint rstrip_slash (s : string) : string :=
  match s with
  | EmptyString => EmptyString
  | String c s' =>
      match rstrip_slash s' with
      | EmptyString => if Ascii.eqb c "/" then "" else String c ""
      | r => String c r
      end
  end.

(** [s == '/' * len(s)]. *)
Fixpoint all_slashes (s : string) : bool :=
  match s with
  | EmptyString => true
  | String c s' => Ascii.eqb c "/" && all_slashes s'
  end.

(** [os.path.split(p)] of posixpath. *)
Definition os_path_split (p : string) : string * string :=
  let (head, tail) := rcut p in
  (match head with
   | EmptyString => head
   | _ => if all_slashes head then head else rstrip_slash head
   end, tail).

(** For the statements: [s] has no slash. *)
Definition no_slash (s : string) : bool :=
  forallb (fun c => negb (Ascii.eqb c "/")) (list_ascii_of_string s).

(** For the statements: the first occurrences of the elements of [l], in
    their order. *)
Fixpoint first_occurrences (l : list string) : list string :=
  match l with
  | [] => []
  | x :: rest =>
      x :: filter (fun y => negb (String.eqb y x)) (first_occurrences rest)
  end.

End PyPath.

(* ================================================================== *)
(** * [file_applicable] and [filter_files] of the two extractors *)

Module LenovoIsoFiles.

Import Py PyPath.
Open Scope string_scope.

Definition file_applicable (E : LenovoIso.Env) (file_path : string) : bool :=
  str_in ".iso" (snd (os_path_split file_path))
  && LenovoIso.os_path_isfile E file_path.

Definition filter_files (E : LenovoIso.Env) (path_list : list string)
  : list string :=
  filter (file_applicable E) path_list.

End LenovoIsoFiles.

Module LenovoExeFiles.

Import Py PyPath.
Open Scope string_scope.

Definition file_applicable (E : LenovoExe.Env) (file_path : string) : bool :=
  str_in ".exe" (snd (os_path_split file_path))
  && LenovoExe.os_path_isfile E file_path.

Definition filter_files (E : LenovoExe.Env) (path_list : list string)
  : list string :=
  filter (file_applicable E) path_list.

End LenovoExeFiles.

(* ================================================================== *)
(** * uefi-extract.py: output files and the loop over capsules *)

Module Orchestrator.

Import Py PyPath UefiExtract.
Open Scope string_scope.

(** What the script can raise besides the exceptions of the extractors:
    [EOFError] from [input()] and the [TypeError] of the path check. *)
Inductive error : Type :=
| Extractor (e : exn)
| EOFError
| TypeError.

Inductive outcome (A : Type) : Type :=
| Returned (a : A)
| Raised (e : error).

Arguments Returned {A} a.
Arguments Raised {A} e.

(** What the script writes to the terminal. *)
Inductive event : Type :=
| Print (line : string)     (* print(line) *)
| Prompt (text : string).   (* the prompt of input(text) *)

(** The files on disk, the lines waiting on standard input and what was
    written to the terminal so far. *)
Record World : Type := {
  files : LenovoExe.FileSystem;
  stdin : list string;
  terminal : list event
}.

Definition gen_filename (dest_folder installer_path capsule_path guid : string)
  : string :=
  let installer_filename := snd (os_path_split installer_path) in
  let capsule_filename := snd (os_path_split capsule_path) in
  os_path_join dest_folder
    (installer_filename ++ "_" ++ capsule_filename ++ "_" ++ guid).

(** For the statements: the name of an output file, from the final
    segments of the two paths. *)
Definition out_name (installer_path capsule_path guid : string) : string :=
  LenovoIso.basename installer_path ++ "_"
  ++ LenovoIso.basename capsule_path ++ "_" ++ guid.

(** [x in ['y', 'n', '']] and [x in ['n', '']]. *)
Definition is_answer (x : string) : bool :=
  String.eqb x "y" || String.eqb x "n" || String.eqb x "".

Definition is_no (x : string) : bool :=
  String.eqb x "n" || String.eqb x "".

(** The loop [while overwrite not in ['y', 'n', '']] of [write_file]:
    [input()] takes the next line, and raises [EOFError] when there is
    none. *)
Fixpoint ask (prompt : string) (lines : list string) (shown : list event)
  : list string * list event * option string :=
  match lines with
  | [] => ([], shown ++ [Prompt prompt], None)%list
  | line :: rest =>
      let overwrite := lower line in
      if is_answer overwrite
      then (rest, shown ++ [Prompt prompt], Some overwrite)%list
      else ask prompt rest (shown ++ [Prompt prompt])%list
  end.

(** [open(path, 'wb').write(data)]. *)
Definition write_bytes (fs : LenovoExe.FileSystem) (path : string)
  (data : bytes) : LenovoExe.FileSystem :=
  fun p => if String.eqb p path then Some data else fs p.

(** [os.path.exists(path)], on a disk that holds files. *)
Definition os_path_exists (fs : LenovoExe.FileSystem) (path : string) : bool :=
  match fs path with Some _ => true | None => false end.

Definition write_file (out_dir installer_path capsule_name guid : string)
  (data : bytes) (w : World) : World * outcome unit :=
  let dest_path := gen_filename out_dir installer_path capsule_name guid in
  let write (w : World) : World * outcome unit :=
    ({| files := write_bytes (files w)
                   (gen_filename out_dir installer_path capsule_name guid) data;
        stdin := stdin w;
        terminal := terminal w |}, Returned tt) in
  if os_path_exists (files w) dest_path then
    match ask ("[?] File " ++ dest_path ++ " exists already. Overwrite [y/N]? ")
              (stdin w) (terminal w) with
    | (lines, shown, None) =>
        ({| files := files w; stdin := lines; terminal := shown |},
         Raised EOFError)
    | (lines, shown, Some overwrite) =>
        if is_no overwrite then
          ({| files := files w;
              stdin := lines;
              terminal :=
                (shown ++ [Print ("[*] File " ++ dest_path ++ " skipped")])%list
           |}, Returned tt)
        else write {| files := files w; stdin := lines; terminal := shown |}
    end
  else write w.

(** The loop [for pe in pes[guid]] of the script. *)
Fixpoint write_images (out_dir installer_path caps guid : string)
  (images : list FirmwareObject) (w : World) : World * outcome unit :=
  match images with
  | [] => (w, Returned tt)
  | pe :: rest =>
      match write_file out_dir installer_path caps guid (data pe) w with
      | (w', Returned _) => write_images out_dir installer_path caps guid rest w'
      | (w', Raised e) => (w', Raised e)
      end
  end.




(** The module chosen by [parsers[args.parser]], as far as the script uses
    it before opening a container. *)
Record ParserModule : Type := {
  file_applicable : string -> bool;
  filter_files : list string -> list string
}.

Definition lenovo_iso (E : LenovoIso.Env) : ParserModule :=
  {| file_applicable := LenovoIsoFiles.file_applicable E;
     filter_files := LenovoIsoFiles.filter_files E |}.

Definition lenovo_exe (E : LenovoExe.Env) : ParserModule :=
  {| file_applicable := LenovoExeFiles.file_applicable E;
     filter_files := LenovoExeFiles.filter_files E |}.

(** The calls on the operating system of the detection of installers. *)
Record Os : Type := {
  os_path_isdir : string -> bool;
  path_exists : string -> bool;
  os_listdir : string -> list string
}.

(** The value of [installers] after the detection. *)
Definition detect_installers (O : Os) (parser : ParserModule) (path : string)
  : outcome (list string) :=
  if os_path_isdir O path then
    Returned (filter_files parser
                (map (fun f => os_path_join path f) (os_listdir O path)))
  else if negb (path_exists O path) then Raised (Extractor FileNotFoundError)
  else if negb (file_applicable parser path) then Raised TypeError
  else Returned [path].

End Orchestrator.

(* ================================================================== *)
(** * Concrete runs *)

Module Runs.

Import Py PyPath Orchestrator.
Open Scope string_scope.

Definition out_file : string :=
  gen_filename "out" "dl/bios.iso" "BIOS.FL1" Trees.guid_1.

(** A disk that holds the output of an earlier run, and two answers. *)
Definition busy_world : World :=
  {| files := fun p => if String.eqb p out_file then Some [Byte.xff] else None;
     stdin := ["maybe"; "Y"];
     terminal := [] |}.

Definition empty_world : World :=
  {| files := Examples.no_files; stdin := []; terminal := [] |}.

(** A directory with an image, a backup of an image and a text file. *)
Definition downloads : Os :=
  {| os_path_isdir := fun p => String.eqb p "dl";
     path_exists := fun p => String.eqb p "dl" || startswith "dl/" p;
     os_listdir := fun _ => ["bios.iso"; "notes.txt"; "old.iso.bak"] |}.

End Runs.

(* ================================================================== *)
(** * Lemmas on the built-ins *)

Module PyFacts.

Import Py.
Open Scope string_scope.

Lemma result_bind_Ok (A B : Type) (r : result A) (k : A -> result B) (b : B) :
  bind r k = Ok b -> exists a, r = Ok a /\ k a = Ok b.
Proof.
  destruct r as [a|e]; simpl; intros H.
  - exists a; split; [reflexivity | exact H].
  - discriminate H.
Qed.

(** ** The pattern [\.FL\d+] *)



(** ** Dictionaries *)

Section DictFacts.
Variable V : Type.
Implicit Types (d : dict V) (k : string) (v : V).
Implicit Types (pairs : list (string * V)).

Lemma get_setitem d k v k' :
  get (setitem d k v) k' = if String.eqb k' k then Some v else get d k'.
Proof.
  induction d as [|[k0 v0] d IH]; simpl.
  - reflexivity.
  - destruct (String.eqb k k0) eqn:Ek; simpl.
    + apply String.eqb_eq in Ek. subst k0.
      destruct (String.eqb k' k); reflexivity.
    + rewrite IH. destruct (String.eqb k' k0) eqn:Ek0; [|reflexivity].
      apply String.eqb_eq in Ek0. subst k0.
      destruct (String.eqb k' k) eqn:Ek'; [|reflexivity].
      apply String.eqb_eq in Ek'. subst k'.
      rewrite String.eqb_refl in Ek. discriminate Ek.
Qed.

Lemma get_Some_iff_key d k : In k (keys d) <-> exists v, get d k = Some v.
Proof.
  induction d as [|[k0 v0] d IH]; simpl.
  - split; [intros [] | intros [v H]; discriminate H].
  - destruct (String.eqb k k0) eqn:Ek.
    + apply String.eqb_eq in Ek. subst k0. split; [|auto]. eauto.
    + apply String.eqb_neq in Ek. rewrite <- IH. split; [|auto].
      intros [H|H]; [congruence | exact H].
Qed.

Lemma contains_iff_key d k : contains d k = true <-> In k (keys d).
Proof.
  rewrite get_Some_iff_key. unfold contains.
  destruct (get d k) as [v|]; split; eauto; try discriminate.
  intros [v H]; discriminate H.
Qed.

Lemma keys_setitem d k v :
  keys (setitem d k v) = if contains d k then keys d else (keys d ++ [k])%list.
Proof.
  unfold contains. induction d as [|[k0 v0] d IH]; simpl.
  - reflexivity.
  - destruct (String.eqb k k0) eqn:Ek; simpl.
    + reflexivity.
    + rewrite IH. destruct (get d k); reflexivity.
Qed.

Lemma NoDup_keys_setitem d k v :
  NoDup (keys d) -> NoDup (keys (setitem d k v)).
Proof.
  intros H. rewrite keys_setitem.
  destruct (contains d k) eqn:E; [exact H|].
  apply NoDup_app; [exact H | repeat constructor; intros [] |].
  intros x Hx [<-|[]]. apply contains_iff_key in Hx. congruence.
Qed.

Lemma get_fold_setitem pairs d k :
  get (fold_left (fun d kv => setitem d (fst kv) (snd kv)) pairs d) k
  = last_value pairs k (get d k).
Proof.
  revert d. induction pairs as [|[k0 v0] pairs IH]; intros d; simpl.
  - reflexivity.
  - rewrite IH, get_setitem. reflexivity.
Qed.

Lemma get_of_pairs pairs k : get (of_pairs pairs) k = last_value pairs k None.
Proof. unfold of_pairs. rewrite get_fold_setitem. reflexivity. Qed.

Lemma NoDup_keys_fold pairs d :
  NoDup (keys d) ->
  NoDup (keys (fold_left (fun d kv => setitem d (fst kv) (snd kv)) pairs d)).
Proof.
  revert d. induction pairs as [|kv pairs IH]; intros d H; simpl.
  - exact H.
  - apply IH, NoDup_keys_setitem, H.
Qed.

Lemma NoDup_keys_of_pairs pairs : NoDup (keys (of_pairs pairs)).
Proof. unfold of_pairs. apply NoDup_keys_fold. constructor. Qed.

Lemma last_value_Some pairs k acc v :
  last_value pairs k acc = Some v ->
  acc = Some v \/ In (k, v) pairs.
Proof.
  revert acc. induction pairs as [|[k0 v0] pairs IH]; intros acc; simpl.
  - auto.
  - intros H. apply IH in H as [H|H]; [|auto].
    destruct (String.eqb k k0) eqn:Ek; [|auto].
    apply String.eqb_eq in Ek. subst k0. injection H as ->. auto.
Qed.

Lemma last_value_is_Some pairs k acc :
  In k (map fst pairs) -> exists v, last_value pairs k acc = Some v.
Proof.
  revert acc. induction pairs as [|[k0 v0] pairs IH]; intros acc; simpl.
  - intros [].
  - intros [H|H].
    + subst k0. rewrite String.eqb_refl.
      destruct (in_dec string_dec k (map fst pairs)) as [Hin|Hout].
      * apply IH, Hin.
      * exists v0. clear IH. revert Hout. generalize (Some v0).
        induction pairs as [|[k1 v1] pairs IH]; intros o Hout; simpl.
        -- reflexivity.
        -- destruct (String.eqb k k1) eqn:Ek.
           ++ apply String.eqb_eq in Ek. subst k1. simpl in Hout. tauto.
           ++ apply IH. simpl in Hout. tauto.
    + apply IH, H.
Qed.

Lemma key_of_pairs pairs k :
  In k (keys (of_pairs pairs)) <-> In k (map fst pairs).
Proof.
  rewrite get_Some_iff_key, get_of_pairs. split.
  - intros [v H]. apply last_value_Some in H as [H|H]; [discriminate H|].
    apply in_map_iff. exists (k, v). auto.
  - apply last_value_is_Some.
Qed.
End DictFacts.

(** ** Sorting *)




(** ** Splitting on white space *)

Lemma append_nil_r (s : string) : s ++ "" = s.
Proof. induction s as [|c s IH]; simpl; congruence. Qed.

Lemma append_assoc (s1 s2 s3 : string) : (s1 ++ s2) ++ s3 = s1 ++ (s2 ++ s3).
Proof. induction s1 as [|c s1 IH]; simpl; congruence. Qed.




End PyFacts.

(* ================================================================== *)
(** * Entry discovery *)

Module Discovery.

Import Py PyFacts Enumeration.
Open Scope string_scope.


(** ** The optical image backend *)




Lemma enter_iso_inv (E : LenovoIso.Env) (iso_path : string)
  (fp : LenovoIso.FileParser) :
  LenovoIso.__enter__ E iso_path = Ok fp ->
  exists paths,
    LenovoIso._find_candidate_capsules (LenovoIso.volume fp) = Ok paths
    /\ LenovoIso.capsules fp
       = of_pairs (map (fun path => (LenovoIso.basename path, path)) paths).
Proof.
  unfold LenovoIso.__enter__. intros H.
  apply result_bind_Ok in H as (p0 & _ & H).
  match type of H with (if ?c then _ else _) = _ => destruct c end;
    [discriminate H|].
  apply result_bind_Ok in H as (paths & Hp & H). injection H as <-.
  exists paths. simpl. auto.
Qed.

Lemma keys_of_basenames (basename : string -> string) (paths : list string)
  (n : string) :
  In n (keys (of_pairs (map (fun path => (basename path, path)) paths))) <->
  exists p, In p paths /\ basename p = n.
Proof.
  rewrite key_of_pairs, map_map. simpl. rewrite in_map_iff.
  split; intros (p & H1 & H2); exists p; auto.
Qed.

(** ** The installer archive backend *)



Lemma enter_exe_inv (E : LenovoExe.Env) (exe : string)
  (td : LenovoExe.TemporaryDirectory) (fp : LenovoExe.FileParser) :
  LenovoExe.__enter__ E exe td = Ok fp ->
  exists paths,
    LenovoExe._find_candidate_capsules E exe = Ok paths
    /\ LenovoExe.exe_path fp = exe /\ LenovoExe.tempdir fp = td
    /\ LenovoExe.capsules fp
       = of_pairs (map (fun path => (LenovoExe.basename path, path)) paths).
Proof.
  unfold LenovoExe.__enter__. intros H.
  apply result_bind_Ok in H as (paths & Hp & H). injection H as <-.
  exists paths. simpl. auto.
Qed.






(** The scenario of the specification: only [BIOS.FL1] is listed. *)
Example scenario_iso_listing :
  LenovoIso.__enter__ (Examples.iso_env Examples.scenario_volume) "bios.iso"
  = Ok Examples.scenario_iso
  /\ LenovoIso.list_capsules Examples.scenario_iso = ["BIOS.FL1"].
Proof. split; reflexivity. Qed.


End Discovery.

(* ================================================================== *)
(** * Partition validation of the optical image backend *)

Module Partition.

Import Py PyFacts Layout.
Open Scope string_scope.

(** Listing the volume fails with [AttributeError] only. *)
Lemma scan_subdirs_raises (v : LenovoIso.Volume) (top : string)
  (subdirs acc : list string) (e : exn) :
  LenovoIso.scan_subdirs v top subdirs acc = Raise e -> e = AttributeError.
Proof.
  revert acc. induction subdirs as [|d rest IH]; intros acc H.
  - discriminate H.
  - cbn [LenovoIso.scan_subdirs] in H.
    destruct (String.eqb d "." || String.eqb d ".."); [exact (IH _ H)|].
    destruct (LenovoIso.opendir v (join "/" [top; d])); simpl in H.
    + exact (IH _ H).
    + congruence.
Qed.

Lemma find_candidate_capsules_raises (v : LenovoIso.Volume) (e : exn) :
  LenovoIso._find_candidate_capsules v = Raise e -> e = AttributeError.
Proof.
  unfold LenovoIso._find_candidate_capsules. intros H.
  destruct (LenovoIso.opendir v "FLASH"); simpl in H; [|congruence].
  destruct (LenovoIso.scan_subdirs _ _ _ _) eqn:Es; simpl in H.
  - discriminate H.
  - apply scan_subdirs_raises in Es. congruence.
Qed.

Lemma validation_test (p0 p1 p2 p3 : LenovoIso.PartitionEntry) :
  (LenovoIso.lba_start p0 =? 0)%N
  || existsb (fun p => negb (LenovoIso.lba_start p =? 0)%N) [p1; p2; p3]
  = false
  <-> single_first_partition p0 p1 p2 p3.
Proof.
  unfold single_first_partition. simpl.
  rewrite !orb_false_iff, !negb_false_iff, !N.eqb_eq, N.eqb_neq. tauto.
Qed.

(** C3.  With a table of four entries, entering the container raises
    [ValueError] exactly when the layout is not "partition 0 non-zero, the
    other three zero"; with that layout the file system is mounted on the
    bytes from [lba_start * 512] to the end of the boot image and the
    container is built from its listing. *)
Theorem partition_validation (E : LenovoIso.Env) (iso_path : string)
  (p0 p1 p2 p3 : LenovoIso.PartitionEntry) :
  LenovoIso.partitions (LenovoIso.from_bytes E (LenovoIso.et_extract E iso_path))
  = [p0; p1; p2; p3] ->
  let boot_image := LenovoIso.et_extract E iso_path in
  let mounted := LenovoIso.vopen E (payload p0 boot_image) in
  (LenovoIso.__enter__ E iso_path = Raise ValueError
   <-> ~ single_first_partition p0 p1 p2 p3)
  /\ (single_first_partition p0 p1 p2 p3 ->
      LenovoIso.__enter__ E iso_path =
      (paths <- LenovoIso._find_candidate_capsules mounted ;;
       Ok {| LenovoIso.iso_path := iso_path;
             LenovoIso.volume := mounted;
             LenovoIso.capsules :=
               of_pairs (map (fun path => (LenovoIso.basename path, path))
                             paths) |}))
  /\ (forall fp, LenovoIso.__enter__ E iso_path = Ok fp ->
      single_first_partition p0 p1 p2 p3 /\ LenovoIso.volume fp = mounted).
Proof.
  intros Hparts boot_image mounted.
  assert (Hvalid : single_first_partition p0 p1 p2 p3 ->
            LenovoIso.__enter__ E iso_path =
            (paths <- LenovoIso._find_candidate_capsules mounted ;;
             Ok {| LenovoIso.iso_path := iso_path;
                   LenovoIso.volume := mounted;
                   LenovoIso.capsules :=
                     of_pairs (map (fun path => (LenovoIso.basename path, path))
                                   paths) |})).
  { intros Hv. apply validation_test in Hv.
    unfold LenovoIso.__enter__. rewrite Hparts. simpl in *. rewrite Hv.
    reflexivity. }
  assert (Hinvalid : ~ single_first_partition p0 p1 p2 p3 ->
            LenovoIso.__enter__ E iso_path = Raise ValueError).
  { intros Hv. unfold LenovoIso.__enter__. rewrite Hparts. simpl.
    match goal with |- (if ?c then _ else _) = _ => destruct c eqn:Ec end;
      [reflexivity|].
    exfalso. apply Hv, validation_test. exact Ec. }
  assert (Hdec : single_first_partition p0 p1 p2 p3
                 \/ ~ single_first_partition p0 p1 p2 p3).
  { rewrite <- validation_test.
    match goal with |- ?b = false \/ _ => destruct b end; [right|left];
      congruence. }
  split; [|split].
  - split; [|exact Hinvalid].
    intros Hraise Hv. rewrite (Hvalid Hv) in Hraise.
    destruct (LenovoIso._find_candidate_capsules mounted) eqn:Ef;
      simpl in Hraise; [discriminate Hraise|].
    apply find_candidate_capsules_raises in Ef. congruence.
  - exact Hvalid.
  - intros fp Hok. destruct Hdec as [Hv|Hv].
    + split; [exact Hv|]. rewrite (Hvalid Hv) in Hok.
      apply result_bind_Ok in Hok as (paths & _ & Hok).
      injection Hok as <-. reflexivity.
    + rewrite (Hinvalid Hv) in Hok. discriminate Hok.
Qed.

(** At the boot image of the examples: one partition at sector 1. *)
Lemma partition_validation_witness :
  single_first_partition
    {| LenovoIso.lba_start := 1 |} {| LenovoIso.lba_start := 0 |}
    {| LenovoIso.lba_start := 0 |} {| LenovoIso.lba_start := 0 |}
  /\ LenovoIso.volume Examples.scenario_iso
     = LenovoIso.vopen (Examples.iso_env Examples.scenario_volume)
         (payload {| LenovoIso.lba_start := 1 |} (repeat Byte.x00 1024)).
Proof.
  exact (proj2 (proj2 (partition_validation
                         (Examples.iso_env Examples.scenario_volume) "bios.iso"
                         eq_refl))
           Examples.scenario_iso eq_refl).
Defined.

(** Two populated partitions are refused. *)
Example two_partitions_refused :
  LenovoIso.__enter__
    {| LenovoIso.os_path_isfile := fun _ => true;
       LenovoIso.et_extract := fun _ => repeat Byte.x00 1024;
       LenovoIso.from_bytes := fun _ =>
         {| LenovoIso.partitions :=
              [ {| LenovoIso.lba_start := 1 |}; {| LenovoIso.lba_start := 0 |};
                {| LenovoIso.lba_start := 64 |}; {| LenovoIso.lba_start := 0 |} ]
         |};
       LenovoIso.vopen := fun _ => Examples.scenario_volume |}
    "bios.iso"
  = Raise ValueError.
Proof. reflexivity. Qed.

End Partition.

(* ================================================================== *)
(** * Lookup of entries by name *)

Module Lookup.

Import Py PyFacts.
Open Scope string_scope.

(** ** A name that is not an entry *)

Lemma open_iso_absent (fp : LenovoIso.FileParser) (name : string) :
  ~ In name (LenovoIso.list_capsules fp) ->
  LenovoIso.open fp name = (fp, Raise KeyError).
Proof.
  intros H. unfold LenovoIso.open.
  destruct (contains (LenovoIso.capsules fp) name) eqn:E; [|reflexivity].
  apply contains_iff_key in E. contradiction.
Qed.

Lemma open_exe_absent (fp : LenovoExe.FileParser) (name : string) :
  ~ In name (LenovoExe.list_capsules fp) ->
  LenovoExe.open fp name = (fp, Raise KeyError).
Proof.
  intros H. unfold LenovoExe.open.
  destruct (contains (LenovoExe.capsules fp) name) eqn:E; [|reflexivity].
  apply contains_iff_key in E. contradiction.
Qed.

(** C8.  In both backends [open] on a name that is not an entry raises
    [KeyError] and returns the container as it was: the entry map, the
    volume and the temporary directory are those it had. *)
Theorem open_absent_raises_KeyError :
  (forall (fp : LenovoIso.FileParser) (name : string),
      ~ In name (LenovoIso.list_capsules fp) ->
      LenovoIso.open fp name = (fp, Raise KeyError))
  /\
  (forall (fp : LenovoExe.FileParser) (name : string),
      ~ In name (LenovoExe.list_capsules fp) ->
      LenovoExe.open fp name = (fp, Raise KeyError)).
Proof. split; [exact open_iso_absent | exact open_exe_absent]. Qed.

Lemma open_absent_raises_KeyError_witness :
  LenovoIso.open Examples.scenario_iso "readme.txt"
  = (Examples.scenario_iso, Raise KeyError)
  /\ LenovoExe.open Examples.scenario_exe "readme.txt"
     = (Examples.scenario_exe, Raise KeyError).
Proof.
  split.
  - apply (proj1 open_absent_raises_KeyError). simpl.
    intros [H|[]]. discriminate H.
  - apply (proj2 open_absent_raises_KeyError). simpl.
    intros [H|[]]. discriminate H.
Defined.

(** ** Names shared by several candidates *)

(** Where the dictionary of final segments is built from [paths], the value
    under [n] is the last path of [paths] whose final segment is [n]. *)
Lemma last_value_basenames (basename : string -> string) (n : string)
  (paths : list string) (acc : option string) :
  (exists l1 q l2,
      paths = (l1 ++ q :: l2)%list /\ basename q = n
      /\ (forall p, In p l2 -> basename p <> n)
      /\ last_value (map (fun p => (basename p, p)) paths) n acc = Some q)
  \/ ((forall p, In p paths -> basename p <> n)
      /\ last_value (map (fun p => (basename p, p)) paths) n acc = acc).
Proof.
  revert acc. induction paths as [|a rest IH]; intros acc.
  - right. split; [intros p []|reflexivity].
  - simpl.
    destruct (IH (if String.eqb n (basename a) then Some a else acc))
      as [(l1 & q & l2 & -> & Hq & Hl2 & Hv) | [Hnone Hv]].
    + left. exists (a :: l1), q, l2. auto.
    + destruct (String.eqb n (basename a)) eqn:En.
      * apply String.eqb_eq in En. left. exists [], a, rest. auto.
      * apply String.eqb_neq in En. right. split; [|exact Hv].
        intros p [<-|Hp]; [congruence | apply Hnone, Hp].
Qed.

Lemma get_basenames (basename : string -> string) (n : string)
  (paths : list string) :
  In n (keys (of_pairs (map (fun p => (basename p, p)) paths))) ->
  exists l1 q l2,
    paths = (l1 ++ q :: l2)%list /\ basename q = n
    /\ (forall p, In p l2 -> basename p <> n)
    /\ get (of_pairs (map (fun p => (basename p, p)) paths)) n = Some q.
Proof.
  intros Hin. rewrite get_of_pairs.
  destruct (last_value_basenames basename n paths None)
    as [H | [Hnone _]]; [exact H|].
  apply Discovery.keys_of_basenames in Hin as (p & Hin & Hp).
  destruct (Hnone p Hin Hp).
Qed.

Lemma NoDup_count_1 (l : list string) (x : string) :
  NoDup l -> In x l -> count_occ string_dec l x = 1.
Proof.
  intros Hnd Hin. apply (proj1 (NoDup_count_occ string_dec l)) with (x := x) in Hnd.
  apply (proj1 (count_occ_In string_dec l x)) in Hin. lia.
Qed.

(** C9.  In both backends the list of entries has no name twice; the final
    segment of every candidate path is listed exactly once; and [open] on a
    listed name gives the candidate that comes last, in the order of the
    candidate list, among those with that final segment. *)
Theorem shared_name_resolves_to_last :
  (forall (E : LenovoIso.Env) (iso_path : string) (fp : LenovoIso.FileParser),
      LenovoIso.__enter__ E iso_path = Ok fp ->
      exists paths,
        LenovoIso._find_candidate_capsules (LenovoIso.volume fp) = Ok paths
        /\ (forall p, In p paths ->
              count_occ string_dec (LenovoIso.list_capsules fp)
                (LenovoIso.basename p) = 1)
        /\ (forall name, In name (LenovoIso.list_capsules fp) ->
              exists l1 q l2,
                paths = (l1 ++ q :: l2)%list
                /\ LenovoIso.basename q = name
                /\ (forall p, In p l2 -> LenovoIso.basename p <> name)
                /\ LenovoIso.open fp name
                   = (fp, Ok (LenovoIso.Capsule__init__
                                (LenovoIso.volume fp) q))))
  /\
  (forall (E : LenovoExe.Env) (exe_path : string)
          (tempdir : LenovoExe.TemporaryDirectory) (fp : LenovoExe.FileParser),
      LenovoExe.__enter__ E exe_path tempdir = Ok fp ->
      exists paths,
        LenovoExe._find_candidate_capsules E exe_path = Ok paths
        /\ (forall p, In p paths ->
              count_occ string_dec (LenovoExe.list_capsules fp)
                (LenovoExe.basename p) = 1)
        /\ (forall name, In name (LenovoExe.list_capsules fp) ->
              exists l1 q l2,
                paths = (l1 ++ q :: l2)%list
                /\ LenovoExe.basename q = name
                /\ (forall p, In p l2 -> LenovoExe.basename p <> name)
                /\ LenovoExe.open fp name
                   = (fp, Ok (LenovoExe.Capsule__init__
                                exe_path q tempdir)))).
Proof.
  split.
  - intros E iso_path fp H.
    apply Discovery.enter_iso_inv in H as (paths & Hp & Hc).
    exists paths. split; [exact Hp|]. split.
    + intros p Hin. unfold LenovoIso.list_capsules. rewrite Hc.
      apply NoDup_count_1; [apply NoDup_keys_of_pairs|].
      apply Discovery.keys_of_basenames. eauto.
    + intros name Hin. unfold LenovoIso.list_capsules in Hin.
      rewrite Hc in Hin.
      assert (Hk := Hin). apply contains_iff_key in Hk.
      apply get_basenames in Hin as (l1 & q & l2 & Hs & Hq & Hl2 & Hget).
      exists l1, q, l2. repeat split; try assumption.
      unfold LenovoIso.open. rewrite Hc, Hk, Hget. reflexivity.
  - intros E exe td fp H.
    apply Discovery.enter_exe_inv in H as (paths & Hp & He & Ht & Hc).
    exists paths. split; [exact Hp|]. split.
    + intros p Hin. unfold LenovoExe.list_capsules. rewrite Hc.
      apply NoDup_count_1; [apply NoDup_keys_of_pairs|].
      apply Discovery.keys_of_basenames. eauto.
    + intros name Hin. unfold LenovoExe.list_capsules in Hin.
      rewrite Hc in Hin.
      assert (Hk := Hin). apply contains_iff_key in Hk.
      apply get_basenames in Hin as (l1 & q & l2 & Hs & Hq & Hl2 & Hget).
      exists l1, q, l2. repeat split; try assumption.
      unfold LenovoExe.open. rewrite Hc, Hk, Hget, He, Ht. reflexivity.
Qed.

(** At the containers with two capsules named [X.FL1]. *)
Lemma shared_name_resolves_to_last_witness :
  (exists paths,
      LenovoIso._find_candidate_capsules (LenovoIso.volume Examples.twin_iso)
      = Ok paths
      /\ (forall p, In p paths ->
            count_occ string_dec (LenovoIso.list_capsules Examples.twin_iso)
              (LenovoIso.basename p) = 1)
      /\ (forall name, In name (LenovoIso.list_capsules Examples.twin_iso) ->
            exists l1 q l2,
              paths = (l1 ++ q :: l2)%list
              /\ LenovoIso.basename q = name
              /\ (forall p, In p l2 -> LenovoIso.basename p <> name)
              /\ LenovoIso.open Examples.twin_iso name
                 = (Examples.twin_iso,
                    Ok (LenovoIso.Capsule__init__
                          (LenovoIso.volume Examples.twin_iso) q))))
  /\
  (exists paths,
      LenovoExe._find_candidate_capsules
        (Examples.exe_env Examples.twin_lines []) "bios.exe" = Ok paths
      /\ (forall p, In p paths ->
            count_occ string_dec (LenovoExe.list_capsules Examples.twin_exe)
              (LenovoExe.basename p) = 1)
      /\ (forall name, In name (LenovoExe.list_capsules Examples.twin_exe) ->
            exists l1 q l2,
              paths = (l1 ++ q :: l2)%list
              /\ LenovoExe.basename q = name
              /\ (forall p, In p l2 -> LenovoExe.basename p <> name)
              /\ LenovoExe.open Examples.twin_exe name
                 = (Examples.twin_exe,
                    Ok (LenovoExe.Capsule__init__ "bios.exe" q
                          {| LenovoExe.name := "/tmp/uefiextract_0" |})))).
Proof.
  split.
  - apply (proj1 shared_name_resolves_to_last
             (Examples.iso_env Examples.twin_volume) "bios.iso").
    reflexivity.
  - apply (proj2 shared_name_resolves_to_last
             (Examples.exe_env Examples.twin_lines []) "bios.exe"
             {| LenovoExe.name := "/tmp/uefiextract_0" |}).
    reflexivity.
Defined.

(** Both candidates are found, in sorted order; one name is listed and it
    opens the second. *)
Example twin_iso_opens_last :
  LenovoIso._find_candidate_capsules Examples.twin_volume
  = Ok ["FLASH/A/X.FL1"; "FLASH/B/X.FL1"]
  /\ LenovoIso.list_capsules Examples.twin_iso = ["X.FL1"]
  /\ snd (LenovoIso.open Examples.twin_iso "X.FL1")
     = Ok (LenovoIso.Capsule__init__ Examples.twin_volume "FLASH/B/X.FL1").
Proof. repeat split. Qed.

Example twin_exe_opens_last :
  LenovoExe._find_candidate_capsules
    (Examples.exe_env Examples.twin_lines []) "bios.exe"
  = Ok ["app/A/X.FL1"; "app/B/X.FL1"]
  /\ LenovoExe.list_capsules Examples.twin_exe = ["X.FL1"]
  /\ snd (LenovoExe.open Examples.twin_exe "X.FL1")
     = Ok (LenovoExe.Capsule__init__ "bios.exe" "app/B/X.FL1"
             {| LenovoExe.name := "/tmp/uefiextract_0" |}).
Proof. repeat split. Qed.

End Lookup.

(* ================================================================== *)
(** * Capsule handles: [read] and [size] *)

Module Handles.

Import Py PyFacts.
Open Scope string_scope.

(** ** The installer archive handle *)

Lemma exe_size_rewinds (c : LenovoExe.LenovoExeCapsule)
  (f : LenovoExe.FileObject) :
  LenovoExe.capsule_handle c = Some f ->
  LenovoExe.size c
  = (LenovoExe.set_handle c
       {| LenovoExe.contents := LenovoExe.contents f;
          LenovoExe.position := 0 |},
     Ok (List.length (LenovoExe.contents f))).
Proof.
  intros H. unfold LenovoExe.size. rewrite H.
  unfold LenovoExe.file_tell, LenovoExe.file_seek. simpl.
  rewrite Nat.add_0_r. reflexivity.
Qed.


Lemma exe_enter_extracted (E : LenovoExe.Env) (fs fs' : LenovoExe.FileSystem)
  (c : LenovoExe.LenovoExeCapsule) (res : LenovoExe.CompletedProcess)
  (content : bytes) :
  LenovoExe.innoextract_I E (LenovoExe.name (LenovoExe.capsule_tempdir c))
    (LenovoExe.capsule_path c) (LenovoExe.capsule_exe_path c) fs = (res, fs') ->
  LenovoExe.returncode res = 0%Z ->
  fs' (os_path_join (LenovoExe.name (LenovoExe.capsule_tempdir c))
         (LenovoExe.capsule_path c)) = Some content ->
  LenovoExe.Capsule__enter__ E fs c
  = (fs', Ok (LenovoExe.set_handle c
                {| LenovoExe.contents := content;
                   LenovoExe.position := 0 |})).
Proof.
  intros Hrun Hrc Hfile.
  unfold LenovoExe.Capsule__enter__, LenovoExe._extract_capsule.
  rewrite Hrun, Hrc. simpl. rewrite Hfile. reflexivity.
Qed.

(** ** The optical image handle *)


Lemma iso_enter_found (v : LenovoIso.Volume) (path : string)
  (f : LenovoIso.FatFile) :
  LenovoIso.lookup v path = Some f ->
  LenovoIso.Capsule__enter__ (LenovoIso.Capsule__init__ v path)
  = Ok {| LenovoIso.volume_handle := v;
          LenovoIso.capsule_path := path;
          LenovoIso.capsule_handle :=
            Some {| LenovoIso.File := f; LenovoIso.pos := 0 |} |}.
Proof.
  intros H. unfold LenovoIso.Capsule__enter__, LenovoIso.vol_open. simpl.
  rewrite H. reflexivity.
Qed.

(** [open] on a listed name succeeds, in both backends. *)
Lemma open_iso_listed (fp : LenovoIso.FileParser) (e : string) :
  In e (LenovoIso.list_capsules fp) ->
  exists path,
    get (LenovoIso.capsules fp) e = Some path
    /\ LenovoIso.open fp e
       = (fp, Ok (LenovoIso.Capsule__init__ (LenovoIso.volume fp) path)).
Proof.
  intros H. assert (Hc := H). apply contains_iff_key in Hc.
  apply get_Some_iff_key in H as [path Hg]. exists path. split; [exact Hg|].
  unfold LenovoIso.open. rewrite Hc, Hg. reflexivity.
Qed.

Lemma open_exe_listed (fp : LenovoExe.FileParser) (e : string) :
  In e (LenovoExe.list_capsules fp) ->
  exists path,
    get (LenovoExe.capsules fp) e = Some path
    /\ LenovoExe.open fp e
       = (fp, Ok (LenovoExe.Capsule__init__ (LenovoExe.exe_path fp) path
                    (LenovoExe.tempdir fp))).
Proof.
  intros H. assert (Hc := H). apply contains_iff_key in Hc.
  apply get_Some_iff_key in H as [path Hg]. exists path. split; [exact Hg|].
  unfold LenovoExe.open. rewrite Hc, Hg. reflexivity.
Qed.

(** For a listed entry [open] returns a capsule.  Optical image: where the
    volume has the file of the stored path and its recorded size is the
    number of bytes it reads, entering the capsule succeeds and [size()] is
    the number of bytes [read()] returns from the start.  Installer
    archive: where innoextract exits with 0 and leaves the file at the
    stored path, entering succeeds and [size()] is the number of bytes
    [read()] returns from the start. *)
Lemma size_is_bytes_read :
  (forall (fp : LenovoIso.FileParser) (e : string),
      In e (LenovoIso.list_capsules fp) ->
      exists c,
        LenovoIso.open fp e = (fp, Ok c)
        /\ forall f,
            LenovoIso.lookup (LenovoIso.volume fp) (LenovoIso.capsule_path c)
            = Some f ->
            LenovoIso.filesize f = N.of_nat (List.length (LenovoIso.stream f)) ->
            exists c' data,
              LenovoIso.Capsule__enter__ c = Ok c'
              /\ snd (LenovoIso.read c' (-1)) = Ok data
              /\ snd (LenovoIso.size c') = Ok (N.of_nat (List.length data)))
  /\
  (forall (E : LenovoExe.Env) (fp : LenovoExe.FileParser) (e : string),
      In e (LenovoExe.list_capsules fp) ->
      exists c,
        LenovoExe.open fp e = (fp, Ok c)
        /\ forall fs fs' res content,
            LenovoExe.innoextract_I E (LenovoExe.name (LenovoExe.tempdir fp))
              (LenovoExe.capsule_path c) (LenovoExe.exe_path fp) fs
            = (res, fs') ->
            LenovoExe.returncode res = 0%Z ->
            fs' (os_path_join (LenovoExe.name (LenovoExe.tempdir fp))
                   (LenovoExe.capsule_path c)) = Some content ->
            exists c' data,
              LenovoExe.Capsule__enter__ E fs c = (fs', Ok c')
              /\ snd (LenovoExe.read c' (-1)) = Ok data
              /\ snd (LenovoExe.size c') = Ok (List.length data)).
Proof.
  split.
  - intros fp e He. apply open_iso_listed in He as (path & _ & Hopen).
    eexists. split; [exact Hopen|]. simpl. intros f Hf Hsize.
    eexists. exists (LenovoIso.stream f).
    split; [apply iso_enter_found, Hf|]. split; [reflexivity|].
    unfold LenovoIso.size, LenovoIso.vol_open. simpl. rewrite Hf. simpl.
    rewrite Hsize. reflexivity.
  - intros E fp e He. apply open_exe_listed in He as (path & _ & Hopen).
    eexists. split; [exact Hopen|]. simpl.
    intros fs fs' res content Hrun Hrc Hfile.
    eexists. exists content.
    split; [apply (exe_enter_extracted E fs
                     (LenovoExe.Capsule__init__ (LenovoExe.exe_path fp) path
                        (LenovoExe.tempdir fp))
                     Hrun Hrc Hfile)|].
    split; [reflexivity|].
    rewrite (exe_size_rewinds _ (f := {| LenovoExe.contents := content;
                                         LenovoExe.position := 0 |}));
      reflexivity.
Qed.

(** At the scenario containers: the capsule of three bytes. *)
Lemma size_is_bytes_read_witness :
  (exists c,
      LenovoIso.open Examples.scenario_iso "BIOS.FL1"
      = (Examples.scenario_iso, Ok c)
      /\ exists c' data,
          LenovoIso.Capsule__enter__ c = Ok c'
          /\ snd (LenovoIso.read c' (-1)) = Ok data
          /\ snd (LenovoIso.size c') = Ok (N.of_nat (List.length data)))
  /\
  (exists c,
      LenovoExe.open Examples.scenario_exe "BIOS.FL1"
      = (Examples.scenario_exe, Ok c)
      /\ exists c' data,
          fst (LenovoExe.Capsule__enter__
                 (Examples.exe_env Examples.scenario_lines
                    [Byte.x4d; Byte.x5a; Byte.x00])
                 Examples.no_files c) "/tmp/uefiextract_0/app/BIOS.FL1"
          = Some [Byte.x4d; Byte.x5a; Byte.x00]
          /\ snd (LenovoExe.Capsule__enter__
                    (Examples.exe_env Examples.scenario_lines
                       [Byte.x4d; Byte.x5a; Byte.x00])
                    Examples.no_files c) = Ok c'
          /\ snd (LenovoExe.read c' (-1)) = Ok data
          /\ snd (LenovoExe.size c') = Ok (List.length data)).
Proof.
  split.
  - destruct (proj1 size_is_bytes_read Examples.scenario_iso "BIOS.FL1")
      as (c & Hopen & Hrest); [simpl; auto|].
    exists c. split; [exact Hopen|].
    injection Hopen as <-.
    apply (Hrest (Examples.file_of [Byte.x4d; Byte.x5a; Byte.x00]));
      reflexivity.
  - destruct (proj2 size_is_bytes_read
                (Examples.exe_env Examples.scenario_lines
                   [Byte.x4d; Byte.x5a; Byte.x00])
                Examples.scenario_exe "BIOS.FL1")
      as (c & Hopen & Hrest); [simpl; auto|].
    exists c. split; [exact Hopen|].
    injection Hopen as <-.
    destruct (Hrest Examples.no_files _ _ [Byte.x4d; Byte.x5a; Byte.x00]
                eq_refl eq_refl eq_refl) as (c' & data & H1 & H2 & H3).
    exists c', data. rewrite H1. auto.
Defined.

(** Entering an installer capsule needs the extracted file at the stored
    path. *)
Lemma exe_enter_needs_file (E : LenovoExe.Env) (fs fs' : LenovoExe.FileSystem)
  (c c' : LenovoExe.LenovoExeCapsule) :
  LenovoExe.Capsule__enter__ E fs c = (fs', Ok c') ->
  fs' (os_path_join (LenovoExe.name (LenovoExe.capsule_tempdir c))
         (LenovoExe.capsule_path c)) <> None.
Proof.
  unfold LenovoExe.Capsule__enter__, LenovoExe._extract_capsule.
  destruct (LenovoExe.innoextract_I E _ _ _ fs) as [res fs1].
  destruct (negb _); [intros H; discriminate H|].
  destruct (fs1 _) as [content|] eqn:Ef; intros H.
  - injection H as <- _. rewrite Ef. discriminate.
  - discriminate H.
Qed.

(** C7 at an installer whose capsule is [app/My BIOS.FL1].  The second
    field of its listing line is the quoted path up to the space, so the
    entry listed is [M] with the path [app/M]; [open] returns a capsule for
    that path, the archive has no such file, and entering the capsule
    raises [FileNotFoundError]. *)
Lemma entry_with_space_not_opened :
  LenovoExe.__enter__ (Examples.archive_env Examples.spaced_entries)
    "bios.exe" {| LenovoExe.name := "/tmp/uefiextract_0" |}
  = Ok Examples.spaced_exe
  /\ LenovoExe.list_capsules Examples.spaced_exe = ["M"]
  /\ LenovoExe.open Examples.spaced_exe "M"
     = (Examples.spaced_exe,
        Ok (LenovoExe.Capsule__init__ "bios.exe" "app/M"
              {| LenovoExe.name := "/tmp/uefiextract_0" |}))
  /\ snd (LenovoExe.Capsule__enter__
            (Examples.archive_env Examples.spaced_entries) Examples.no_files
            (LenovoExe.Capsule__init__ "bios.exe" "app/M"
               {| LenovoExe.name := "/tmp/uefiextract_0" |}))
     = Raise FileNotFoundError.
Proof. repeat split. Qed.



(** Before [size()] the next two bytes are the fourth and fifth; after it
    they are the first and second. *)
Example exe_read_after_size :
  let f := {| LenovoExe.contents :=
                [Byte.x01; Byte.x02; Byte.x03; Byte.x04; Byte.x05];
              LenovoExe.position := 3 |} in
  let c := LenovoExe.set_handle
             (LenovoExe.Capsule__init__ "bios.exe" "app/BIOS.FL1"
                {| LenovoExe.name := "/tmp/uefiextract_0" |}) f in
  snd (LenovoExe.read c 2) = Ok [Byte.x04; Byte.x05]
  /\ snd (LenovoExe.read (fst (LenovoExe.size c)) 2) = Ok [Byte.x01; Byte.x02]
  /\ LenovoExe.read c (-2) = (c, Raise ValueError).
Proof. repeat split. Qed.

End Handles.

(* ================================================================== *)
(** * The firmware tree search *)

Module TreeSearch.

Import Py PyFacts UefiExtract Traversal.
Open Scope string_scope.

(** ** Lists *)

Lemma flat_map_Forall_ext (A B : Type) (f g : A -> list B) (l : list A) :
  Forall (fun x => f x = g x) l -> flat_map f l = flat_map g l.
Proof.
  induction 1 as [|x l Hx _ IH]; simpl; [reflexivity|].
  rewrite Hx, IH. reflexivity.
Qed.

Lemma filter_flat_map (A B : Type) (p : B -> bool) (f : A -> list B)
  (l : list A) :
  filter p (flat_map f l) = flat_map (fun x => filter p (f x)) l.
Proof.
  induction l as [|x l IH]; simpl; [reflexivity|].
  rewrite filter_app, IH. reflexivity.
Qed.

Lemma map_of_flat_map (A B C : Type) (h : B -> C) (f : A -> list B)
  (l : list A) :
  map h (flat_map f l) = flat_map (fun x => map h (f x)) l.
Proof.
  induction l as [|x l IH]; simpl; [reflexivity|].
  rewrite map_app, IH. reflexivity.
Qed.

Lemma filter_none (A : Type) (p : A -> bool) (l : list A) :
  forallb (fun x => negb (p x)) l = true -> filter p l = [].
Proof.
  induction l as [|x l IH]; simpl; [reflexivity|].
  intros H. apply andb_prop in H as [Hx Hl].
  apply negb_true_iff in Hx. rewrite Hx. exact (IH Hl).
Qed.

Lemma mem_In (x : string) (l : list string) : mem x l = true <-> In x l.
Proof.
  unfold mem. rewrite existsb_exists. split.
  - intros (y & Hy & E). apply String.eqb_eq in E. subst y. exact Hy.
  - intros H. exists x. split; [exact H | apply String.eqb_refl].
Qed.

Lemma mem_same_set (l1 l2 : list string) :
  (forall g, In g l1 <-> In g l2) -> forall x, mem x l1 = mem x l2.
Proof.
  intros H x. apply eq_true_iff_eq. rewrite !mem_In. apply H.
Qed.

(** ** The search for files *)

Lemma preorder_unfold (t : FirmwareObject) : preorder t = t :: below t.
Proof. destruct t; reflexivity. Qed.

(** The files found are the wanted nodes below the root, in pre-order. *)
Lemma find_file_by_guid_core_spec (t : FirmwareObject) (guids : list string) :
  find_file_by_guid_core t guids
  = map tagged (filter (is_wanted_file guids) (below t)).
Proof.
  induction t as [ty g a d objs IH] using FirmwareObject_ind.
  unfold below. simpl. rewrite filter_flat_map, map_of_flat_map.
  apply flat_map_Forall_ext. eapply Forall_impl; [|exact IH].
  intros obj Hobj. simpl in Hobj. rewrite Hobj, preorder_unfold. simpl.
  destruct (is_wanted_file guids obj); reflexivity.
Qed.

Lemma is_wanted_same_set (G1 G2 : list string) :
  (forall g, In g G1 <-> In g G2) ->
  forall n, is_wanted_file G1 n = is_wanted_file G2 n.
Proof.
  intros H n. unfold is_wanted_file. rewrite (mem_same_set _ _ H). reflexivity.
Qed.

Lemma find_file_by_guid_same_set (t : FirmwareObject) (g1 g2 : list string) :
  (forall g, In g g1 <-> In g g2) ->
  find_file_by_guid t g1 = find_file_by_guid t g2.
Proof.
  intros H. unfold find_file_by_guid. rewrite !find_file_by_guid_core_spec.
  f_equal. apply filter_ext. apply is_wanted_same_set.
  intros g. rewrite !in_map_iff.
  split; intros (x & Hx & Hin); exists x; (split; [exact Hx | apply H, Hin]).
Qed.

(** ** The search for images *)

Lemma find_PE32_spec (t : FirmwareObject) :
  find_PE32 t = filter is_PE32 (preorder_to_images t).
Proof.
  induction t as [ty g a d objs IH] using FirmwareObject_ind.
  cbn [find_PE32 preorder_to_images].
  destruct (is_PE32 (mkObject ty g a d objs)) eqn:E.
  - simpl filter. rewrite E. reflexivity.
  - simpl filter. rewrite E, filter_flat_map.
    apply flat_map_Forall_ext, IH.
Qed.

Lemma preorder_to_images_incl (t : FirmwareObject) (x : FirmwareObject) :
  In x (preorder_to_images t) -> In x (preorder t).
Proof.
  induction t as [ty g a d objs IH] using FirmwareObject_ind.
  cbn [preorder_to_images preorder].
  destruct (is_PE32 (mkObject ty g a d objs)).
  - intros [H|[]]. left. exact H.
  - intros [H|H]; [left; exact H|]. right.
    apply in_flat_map in H as (obj & Hobj & Hx). apply in_flat_map.
    exists obj. split; [exact Hobj|].
    rewrite Forall_forall in IH. apply (IH obj Hobj Hx).
Qed.

Lemma find_PE32_leaves (t : FirmwareObject) :
  images_are_leaves t = true ->
  find_PE32 t = filter is_PE32 (preorder t).
Proof.
  induction t as [ty g a d objs IH] using FirmwareObject_ind.
  cbn [find_PE32 preorder images_are_leaves]. intros H.
  apply andb_prop in H as [Himg Hobjs].
  destruct (is_PE32 (mkObject ty g a d objs)) eqn:E.
  - simpl filter. rewrite E, (filter_none _ _ Himg). reflexivity.
  - simpl filter. rewrite E, filter_flat_map.
    apply flat_map_Forall_ext. rewrite forallb_forall in Hobjs.
    rewrite Forall_forall in IH |- *.
    intros obj Hobj. apply (IH obj Hobj), Hobjs, Hobj.
Qed.

Lemma find_PE32_none (t : FirmwareObject) :
  filter is_PE32 (preorder t) = [] -> find_PE32 t = [].
Proof.
  intros H. rewrite find_PE32_spec.
  destruct (filter is_PE32 (preorder_to_images t)) as [|x l] eqn:E;
    [reflexivity|].
  assert (Hx : In x (filter is_PE32 (preorder t))).
  { assert (Hin : In x (filter is_PE32 (preorder_to_images t)))
      by (rewrite E; left; reflexivity).
    apply filter_In in Hin as [Hin Hp]. apply filter_In.
    split; [apply preorder_to_images_incl, Hin | exact Hp]. }
  rewrite H in Hx. destruct Hx.
Qed.

(** ** The dictionary of results *)

Lemma get_add_found (pes : MatchResult) (g k : string) (f : FirmwareObject) :
  get (add_found pes (g, f)) k
  = if String.eqb k g
    then Some (match get pes g with Some l => l | None => [] end
               ++ find_PE32 f)%list
    else get pes k.
Proof.
  unfold add_found, contains.
  destruct (get pes g) as [l|] eqn:Eg; simpl.
  - rewrite Eg, get_setitem. reflexivity.
  - rewrite get_setitem, String.eqb_refl, !get_setitem. simpl.
    destruct (String.eqb k g); reflexivity.
Qed.

Lemma images_for_none (k : string) (found : list (string * FirmwareObject)) :
  existsb (fun x => String.eqb k (fst x)) found = false ->
  images_for k found = [].
Proof.
  unfold images_for. induction found as [|x rest IH]; simpl; [reflexivity|].
  intros H. apply orb_false_iff in H as [Hx Hrest].
  rewrite Hx. exact (IH Hrest).
Qed.

Lemma get_fold_add_found (found : list (string * FirmwareObject))
  (pes : MatchResult) (k : string) :
  get (fold_left add_found found pes) k
  = if existsb (fun x => String.eqb k (fst x)) found
    then Some (match get pes k with Some l => l | None => [] end
               ++ images_for k found)%list
    else get pes k.
Proof.
  revert pes. induction found as [|[g f] rest IH]; intros pes;
    [reflexivity|].
  cbn [fold_left]. rewrite IH, get_add_found.
  unfold images_for. simpl.
  destruct (String.eqb k g) eqn:Ek.
  - apply String.eqb_eq in Ek. subst g. simpl.
    destruct (existsb (fun x => String.eqb k (fst x)) rest) eqn:Er.
    + rewrite <- app_assoc. reflexivity.
    + fold (images_for k rest). rewrite (images_for_none _ _ Er), app_nil_r.
      reflexivity.
  - simpl. reflexivity.
Qed.

Lemma fold_add_found_not_empty (found : list (string * FirmwareObject)) :
  found <> [] -> fold_left add_found found [] <> [].
Proof.
  destruct found as [|[g f] rest]; [congruence|]. intros _ H.
  assert (Hg := get_fold_add_found ((g, f) :: rest) [] g).
  rewrite H in Hg. simpl in Hg. rewrite String.eqb_refl in Hg.
  discriminate Hg.
Qed.

(** ** Matching of GUIDs *)

Lemma qualifies_lower_case (guids : list string) (n : FirmwareObject) :
  lower (get_or_empty (info_guid n)) = get_or_empty (info_guid n) ->
  is_wanted_file (map lower guids) n = qualifies guids n.
Proof.
  intros H. unfold is_wanted_file, qualifies, is_File. rewrite H. reflexivity.
Qed.

(** C2, as the code has it.  The target GUIDs are put in lower case once;
    the GUID of a node is compared as the tree has it.  A node is found if
    and only if it lies below the root, its type is [FirmwareFile] and its
    GUID is a member of the targets in lower case; the files come in
    pre-order.  Targets that differ only in letter case give the same files
    and the same result; and on a tree whose GUIDs are in lower case a node
    is found exactly when it qualifies in the sense of the specification. *)
Theorem guid_matching (t : FirmwareObject) (guids : list string) :
  find_file_by_guid t guids
  = map tagged (filter (is_wanted_file (map lower guids)) (below t))
  /\ (forall guids' : list string,
        map lower guids' = map lower guids ->
        find_file_by_guid t guids' = find_file_by_guid t guids
        /\ forall AutoParser content,
             find_PEs AutoParser content guids'
             = find_PEs AutoParser content guids)
  /\ ((forall n, In n (below t) ->
         lower (get_or_empty (info_guid n)) = get_or_empty (info_guid n)) ->
      find_file_by_guid t guids
      = map tagged (filter (qualifies guids) (below t))).
Proof.
  split; [apply find_file_by_guid_core_spec|]. split.
  - intros guids' H. split.
    + unfold find_file_by_guid. rewrite H. reflexivity.
    + intros AP content. unfold find_PEs, find_file_by_guid. rewrite H.
      reflexivity.
  - intros Hlow. unfold find_file_by_guid.
    rewrite find_file_by_guid_core_spec. f_equal.
    induction (below t) as [|n l IH]; simpl; [reflexivity|].
    rewrite (qualifies_lower_case guids n) by (apply Hlow; left; reflexivity).
    rewrite IH by (intros m Hm; apply Hlow; right; exact Hm).
    reflexivity.
Qed.

(** Targets in upper case on a tree in lower case. *)
Lemma guid_matching_witness :
  (find_file_by_guid Trees.lower_case_tree [Trees.guid_upper]
   = find_file_by_guid Trees.lower_case_tree [Trees.guid_lower]
   /\ forall AutoParser content,
        find_PEs AutoParser content [Trees.guid_upper]
        = find_PEs AutoParser content [Trees.guid_lower])
  /\ find_file_by_guid Trees.lower_case_tree [Trees.guid_upper]
     = map tagged (filter (qualifies [Trees.guid_upper])
                          (below Trees.lower_case_tree)).
Proof.
  split.
  - apply (proj1 (proj2 (guid_matching Trees.lower_case_tree
                           [Trees.guid_lower])) [Trees.guid_upper]).
    reflexivity.
  - apply (proj2 (proj2 (guid_matching Trees.lower_case_tree
                           [Trees.guid_upper]))).
    simpl. intros n [<-|[<-|[]]]; reflexivity.
Defined.

(** C2 as stated fails: a File node whose GUID is in upper case qualifies
    (its GUID in lower case is a target) and is not found, so the tree in
    upper case and the tree in lower case give different results. *)
Lemma upper_case_node_not_found :
  In (Trees.file Trees.guid_upper [Trees.image [Byte.x01] []])
     (preorder Trees.upper_case_tree)
  /\ qualifies [Trees.guid_lower]
       (Trees.file Trees.guid_upper [Trees.image [Byte.x01] []]) = true
  /\ find_file_by_guid Trees.upper_case_tree [Trees.guid_lower] = []
  /\ find_PEs (Trees.parser_of Trees.upper_case_tree) [] [Trees.guid_lower]
     = Raise FileNotFoundError
  /\ find_PEs (Trees.parser_of Trees.lower_case_tree) [] [Trees.guid_lower]
     = Ok [(Trees.guid_lower, [Trees.image [Byte.x01] []])].
Proof.
  split; [right; left; reflexivity|]. repeat split.
Qed.

(** ** No match *)

(** C4, as the code has it.  The root returned by the parser is not itself
    tested.  With a recognised format the search raises [FileNotFoundError]
    if and only if no node below the root is a wanted file; with at least
    one it returns a dictionary; and a dictionary it returns is never
    empty. *)
Theorem not_found_iff_no_match (AutoParser : bytes -> UefiParser)
  (content : bytes) (guids : list string) :
  parser_type (AutoParser content) <> "unknown" ->
  let wanted :=
    filter (is_wanted_file (map lower guids))
           (below (parse (AutoParser content))) in
  (find_PEs AutoParser content guids = Raise FileNotFoundError
   <-> wanted = [])
  /\ (wanted <> [] ->
      exists pes, find_PEs AutoParser content guids = Ok pes)
  /\ find_PEs AutoParser content guids <> Ok [].
Proof.
  intros Htype wanted. apply String.eqb_neq in Htype.
  assert (Hfound : find_file_by_guid (parse (AutoParser content)) guids
                   = map tagged wanted)
    by apply find_file_by_guid_core_spec.
  unfold find_PEs. rewrite Htype, Hfound.
  destruct wanted as [|n rest]; simpl.
  - split; [tauto|]. split; [congruence | discriminate].
  - split; [split; discriminate|]. split; [eauto|].
    intros H. injection H as H.
    apply (fold_add_found_not_empty (found := map tagged (n :: rest)));
      [discriminate | exact H].
Qed.

(** A target that is absent from the scenario tree. *)
Lemma not_found_iff_no_match_witness :
  find_PEs (Trees.parser_of Trees.scenario_tree) [] [Trees.guid_lower]
  = Raise FileNotFoundError
  <-> filter (is_wanted_file (map lower [Trees.guid_lower]))
             (below Trees.scenario_tree) = [].
Proof.
  apply (not_found_iff_no_match (Trees.parser_of Trees.scenario_tree) []
           [Trees.guid_lower]).
  discriminate.
Defined.

(** C4 as stated fails: in the tree that is one file the File node
    qualifies, and the search raises [FileNotFoundError]. *)
Lemma root_file_not_found :
  In Trees.lone_file (preorder Trees.lone_file)
  /\ qualifies [Trees.guid_1] Trees.lone_file = true
  /\ find_PEs (Trees.parser_of Trees.lone_file) [] [Trees.guid_1]
     = Raise FileNotFoundError.
Proof.
  split; [left; reflexivity|]. split; reflexivity.
Qed.

(** ** Collection of images *)

(** C5, as the code has it.  The images collected for a file are the PE32
    nodes met by the pre-order traversal of its subtree that stops at a PE32
    node: children in their order, nothing below an image.  Where no image
    has an image below it these are all the PE32 nodes of the subtree in
    pre-order.  A file without PE32 nodes gives the empty list, and the
    dictionary then holds the concatenation, in the order of the files
    found, of what the files of a GUID give. *)
Theorem image_collection (file : FirmwareObject) :
  find_PE32 file = filter is_PE32 (preorder_to_images file)
  /\ (images_are_leaves file = true ->
      find_PE32 file = filter is_PE32 (preorder file))
  /\ (filter is_PE32 (preorder file) = [] -> find_PE32 file = [])
  /\ (forall AutoParser content guids pes g,
        find_PEs AutoParser content guids = Ok pes ->
        In (g, file)
           (find_file_by_guid (parse (AutoParser content)) guids) ->
        get pes g
        = Some (images_for g
                  (find_file_by_guid (parse (AutoParser content)) guids))).
Proof.
  split; [apply find_PE32_spec|].
  split; [apply find_PE32_leaves|].
  split; [apply find_PE32_none|].
  intros AP content guids pes g H Hin. unfold find_PEs in H.
  destruct (String.eqb (parser_type (AP content)) "unknown");
    [discriminate H|].
  destruct (List.length _ =? 0)%nat; [discriminate H|].
  injection H as <-. rewrite get_fold_add_found. simpl.
  replace (existsb _ _) with true; [reflexivity|].
  symmetry. apply existsb_exists. exists (g, file).
  split; [exact Hin | apply String.eqb_refl].
Qed.

(** At the file of the scenario tree with two images, and at the file
    without images. *)
Lemma image_collection_witness :
  find_PE32 (Trees.file Trees.guid_1
               [Trees.image [Byte.x01] [];
                Trees.section [Trees.image [Byte.x02] []]])
  = [Trees.image [Byte.x01] []; Trees.image [Byte.x02] []]
  /\ find_PE32 (Trees.file Trees.guid_1 [Trees.section []]) = []
  /\ get [(Trees.guid_1, [])] Trees.guid_1
     = Some (images_for Trees.guid_1
               (find_file_by_guid Trees.bare_tree [Trees.guid_1])).
Proof.
  split; [|split].
  - exact (eq_trans
             (proj1 (proj2 (image_collection
                              (Trees.file Trees.guid_1
                                 [Trees.image [Byte.x01] [];
                                  Trees.section [Trees.image [Byte.x02] []]])))
                eq_refl)
             eq_refl).
  - apply (proj1 (proj2 (proj2 (image_collection _)))). reflexivity.
  - apply (proj2 (proj2 (proj2 (image_collection
                                  (Trees.file Trees.guid_1 [Trees.section []]))))
             (Trees.parser_of Trees.bare_tree) [] [Trees.guid_1]).
    + reflexivity.
    + left. reflexivity.
Defined.

(** C5 as stated fails: the image below an image is a PE32 node of the
    file's subtree and is not collected. *)
Lemma inner_image_not_collected :
  In Trees.inner_image (filter is_PE32 (preorder Trees.nested_file))
  /\ find_PE32 Trees.nested_file = [Trees.outer_image]
  /\ ~ In Trees.inner_image (find_PE32 Trees.nested_file).
Proof.
  split; [right; left; reflexivity|]. split; [reflexivity|].
  intros [H|[]]. discriminate H.
Qed.

(** The scenario of the specification: two images, in tree order. *)
Example scenario_search :
  find_PEs (Trees.parser_of Trees.scenario_tree) [] [Trees.guid_1]
  = Ok [(Trees.guid_1,
         [Trees.image [Byte.x01] []; Trees.image [Byte.x02] []])].
Proof. reflexivity. Qed.

(** ** Determinism *)

(** C6.  The result is a function of the capsule bytes and of the set of
    target GUIDs: two runs on the same bytes with target lists that have the
    same members, in whatever order and multiplicity, return the same
    dictionary: the same GUIDs in the same order, each with the same list
    of images in the same order. *)
Theorem search_deterministic (AutoParser : bytes -> UefiParser)
  (content1 content2 : bytes) (guids1 guids2 : list string) :
  content1 = content2 ->
  (forall g, In g guids1 <-> In g guids2) ->
  find_PEs AutoParser content1 guids1 = find_PEs AutoParser content2 guids2.
Proof.
  intros <- H. unfold find_PEs.
  rewrite (find_file_by_guid_same_set _ _ _ H). reflexivity.
Qed.

(** The same two targets, listed in two orders and once repeated. *)
Lemma search_deterministic_witness :
  find_PEs (Trees.parser_of Trees.scenario_tree) []
    [Trees.guid_1; Trees.guid_2]
  = find_PEs (Trees.parser_of Trees.scenario_tree) []
      [Trees.guid_2; Trees.guid_1; Trees.guid_2].
Proof.
  apply search_deterministic; [reflexivity|].
  intros g. simpl. tauto.
Defined.

End TreeSearch.

(* ================================================================== *)
(** * Construction of the containers *)

Module Construction.

Open Scope string_scope.

(** Without innoextract on the path the installer container is refused
    before any entry is listed. *)
Example missing_tool_refused :
  LenovoExe.__init__
    {| LenovoExe.os_path_isfile := fun _ => true;
       LenovoExe.shutil_which := fun _ => None;
       LenovoExe.mkdtemp := {| LenovoExe.name := "/tmp/uefiextract_0" |};
       LenovoExe.innoextract_l :=
         fun _ => Examples.listing Examples.scenario_lines;
       LenovoExe.decode_utf8 := Examples.utf8;
       LenovoExe.innoextract_I := fun _ _ _ fs =>
         ({| LenovoExe.returncode := 0; LenovoExe.stdout := [] |}, fs) |}
    "bios.exe"
  = Raise (RuntimeError None).
Proof. reflexivity. Qed.

(** A path that is not a file is refused by both backends. *)
Example missing_file_refused :
  LenovoIso.__init__
    {| LenovoIso.os_path_isfile := fun _ => false;
       LenovoIso.et_extract := fun _ => [];
       LenovoIso.from_bytes := fun _ => Examples.one_partition 1;
       LenovoIso.vopen := fun _ => Examples.scenario_volume |}
    "bios.iso"
  = Raise FileNotFoundError
  /\ LenovoExe.__init__
       {| LenovoExe.os_path_isfile := fun _ => false;
          LenovoExe.shutil_which := fun _ => Some "/usr/bin/innoextract";
          LenovoExe.mkdtemp := {| LenovoExe.name := "/tmp/uefiextract_0" |};
          LenovoExe.innoextract_l :=
            fun _ => Examples.listing Examples.scenario_lines;
          LenovoExe.decode_utf8 := Examples.utf8;
          LenovoExe.innoextract_I := fun _ _ _ fs =>
            ({| LenovoExe.returncode := 0; LenovoExe.stdout := [] |}, fs) |}
       "bios.exe"
     = Raise FileNotFoundError.
Proof. split; reflexivity. Qed.

(** A listing that fails carries the exit status. *)
Example failed_listing_refused :
  LenovoExe._find_candidate_capsules
    {| LenovoExe.os_path_isfile := fun _ => true;
       LenovoExe.shutil_which := fun _ => Some "/usr/bin/innoextract";
       LenovoExe.mkdtemp := {| LenovoExe.name := "/tmp/uefiextract_0" |};
       LenovoExe.innoextract_l := fun _ =>
         {| LenovoExe.returncode := 1; LenovoExe.stdout := [] |};
       LenovoExe.decode_utf8 := Examples.utf8;
       LenovoExe.innoextract_I := fun _ _ _ fs =>
         ({| LenovoExe.returncode := 0; LenovoExe.stdout := [] |}, fs) |}
    "bios.exe"
  = Raise (RuntimeError (Some 1%Z)).
Proof. reflexivity. Qed.

End Construction.

(* ================================================================== *)
(** * Paths, applicable files and output names *)

Module PathFacts.

Import Py PyFacts PyPath.
Open Scope string_scope.

Lemma startswith_spec (pre s : string) :
  startswith pre s = true <-> exists post, s = pre ++ post.
Proof.
  revert s. induction pre as [|a pre IH]; intros s; simpl.
  - split; [eauto | reflexivity].
  - destruct s as [|b s].
    + split; [discriminate | intros [post H]; discriminate H].
    + rewrite andb_true_iff, Ascii.eqb_eq, IH. split.
      * intros [-> [post ->]]. eauto.
      * intros [post H]. injection H as -> ->. eauto.
Qed.

Lemma str_in_spec (needle hay : string) :
  str_in needle hay = true <-> exists pre post, hay = pre ++ needle ++ post.
Proof.
  induction hay as [|c hay IH]; simpl.
  - rewrite orb_false_r, startswith_spec. split.
    + intros [post H]. exists "", post. exact H.
    + intros (pre & post & H). destruct pre as [|a pre]; [eauto|discriminate H].
  - rewrite orb_true_iff, startswith_spec, IH. split.
    + intros [[post H] | (pre & post & H)].
      * exists "", post. exact H.
      * exists (String c pre), post. simpl. f_equal. exact H.
    + intros (pre & post & H). destruct pre as [|a pre].
      * left. exists post. exact H.
      * right. simpl in H. injection H as _ H. eauto.
Qed.

Lemma no_slash_app (s1 s2 : string) :
  no_slash (s1 ++ s2) = no_slash s1 && no_slash s2.
Proof.
  unfold no_slash. induction s1 as [|c s1 IH]; simpl; [reflexivity|].
  rewrite IH, andb_assoc. reflexivity.
Qed.

Lemma rcut_no_slash (s : string) : no_slash s = true -> rcut s = ("", s).
Proof.
  unfold no_slash. induction s as [|c s IH]; simpl; [reflexivity|].
  intros H. apply andb_prop in H as [Hc Hs]. rewrite (IH Hs).
  apply negb_true_iff in Hc. rewrite Hc. reflexivity.
Qed.

Lemma rcut_tail_no_slash (p : string) : no_slash (snd (rcut p)) = true.
Proof.
  induction p as [|c p IH]; simpl; [reflexivity|].
  destruct (rcut p) as [h t]. simpl in IH.
  destruct h as [|a h]; simpl; [|exact IH].
  destruct (Ascii.eqb c "/") eqn:Ec; simpl; [exact IH|].
  unfold no_slash in *. simpl. rewrite Ec, IH. reflexivity.
Qed.

(** The cut after a directory part. *)
Lemma rcut_after_slash (dir s : string) :
  no_slash s = true -> rcut (dir ++ "/" ++ s) = (dir ++ "/", s).
Proof.
  intros Hs. induction dir as [|c dir IH].
  - simpl. rewrite (rcut_no_slash _ Hs). reflexivity.
  - change (rcut (String c dir ++ "/" ++ s))
      with (let (h, t) := rcut (dir ++ "/" ++ s) in
            match h with
            | EmptyString =>
                if Ascii.eqb c "/" then (String c "", t) else ("", String c t)
            | _ => (String c h, t)
            end).
    rewrite IH. destruct dir; reflexivity.
Qed.

Lemma split_from_not_nil (sep : ascii) (cur s : string) :
  split_from sep cur s <> [].
Proof.
  revert cur. induction s as [|c s IH]; intros cur; simpl; [discriminate|].
  destruct (Ascii.eqb c sep); [discriminate | apply IH].
Qed.

Lemma last_cons (x : string) (l : list string) :
  l <> [] -> List.last (x :: l) "" = List.last l "".
Proof. destruct l; [congruence | reflexivity]. Qed.

Lemma last_segment_from (cur s : string) :
  last_item (split_from "/" cur s)
  = match fst (rcut s) with
    | EmptyString => cur ++ snd (rcut s)
    | _ => snd (rcut s)
    end.
Proof.
  unfold last_item. revert cur. induction s as [|c s IH]; intros cur.
  - simpl. rewrite append_nil_r. reflexivity.
  - cbn [split_from rcut]. destruct (Ascii.eqb c "/") eqn:Ec.
    + rewrite last_cons by apply split_from_not_nil. rewrite IH.
      destruct (rcut s) as [h t]. destruct h; reflexivity.
    + rewrite IH. destruct (rcut s) as [h t]. destruct h; simpl.
      * unfold snoc. rewrite append_assoc. reflexivity.
      * reflexivity.
Qed.

(** The tail of [os.path.split] is the last segment of [split('/')]. *)
Lemma split_tail_is_last_segment (p : string) :
  snd (os_path_split p) = last_item (split "/" p).
Proof.
  unfold split. rewrite last_segment_from. unfold os_path_split.
  destruct (rcut p) as [h t]. destruct h; reflexivity.
Qed.

Lemma split_tail_no_slash (p : string) :
  no_slash (snd (os_path_split p)) = true.
Proof.
  unfold os_path_split. assert (H := rcut_tail_no_slash p).
  destruct (rcut p) as [h t]. exact H.
Qed.

Lemma split_tail_of_name (s : string) :
  no_slash s = true -> snd (os_path_split s) = s.
Proof.
  intros H. unfold os_path_split. rewrite (rcut_no_slash _ H). reflexivity.
Qed.

Lemma split_tail_after_dir (dir s : string) :
  no_slash s = true -> snd (os_path_split (dir ++ "/" ++ s)) = s.
Proof.
  intros H. unfold os_path_split. rewrite (rcut_after_slash _ _ H).
  reflexivity.
Qed.

End PathFacts.

(* ================================================================== *)
(** * Applicable files, detection of installers, output names *)

Module Files.

Import Py PyFacts PyPath PathFacts Orchestrator.
Open Scope string_scope.

(** X1.  [file_applicable] accepts a path exactly when it is a regular file and
    [.iso] (for the installer archives [.exe]) occurs somewhere in its final
    segment, not only at its end. *)
Theorem file_applicable_iff :
  (forall (E : LenovoIso.Env) (p : string),
      LenovoIsoFiles.file_applicable E p = true <->
      LenovoIso.os_path_isfile E p = true
      /\ exists pre post, LenovoIso.basename p = pre ++ ".iso" ++ post)
  /\
  (forall (E : LenovoExe.Env) (p : string),
      LenovoExeFiles.file_applicable E p = true <->
      LenovoExe.os_path_isfile E p = true
      /\ exists pre post, LenovoExe.basename p = pre ++ ".exe" ++ post).
Proof.
  split; intros E p.
  - unfold LenovoIsoFiles.file_applicable, LenovoIso.basename.
    rewrite andb_true_iff, str_in_spec, split_tail_is_last_segment. tauto.
  - unfold LenovoExeFiles.file_applicable, LenovoExe.basename.
    rewrite andb_true_iff, str_in_spec, split_tail_is_last_segment. tauto.
Qed.

Lemma detected_applicable (O : Os) (parser : ParserModule) (path : string)
  (l : list string) :
  (forall paths, filter_files parser paths
                 = filter (file_applicable parser) paths) ->
  detect_installers O parser path = Returned l ->
  forall i, In i l -> file_applicable parser i = true.
Proof.
  intros Hf H i Hi. unfold detect_installers in H.
  destruct (os_path_isdir O path).
  - injection H as <-. rewrite Hf in Hi. apply filter_In in Hi. apply Hi.
  - destruct (negb (path_exists O path)); [discriminate H|].
    destruct (file_applicable parser path) eqn:Ea; [|discriminate H].
    injection H as <-. destruct Hi as [<-|[]]. exact Ea.
Qed.

(** X2.  Every installer that the detection returns passes the file check of the
    container's constructor: the optical image container is constructed,
    and the installer archive container is constructed whenever innoextract
    is on the path. *)
Theorem detected_installers_construct :
  (forall (O : Os) (E : LenovoIso.Env) (path : string) (l : list string),
      detect_installers O (lenovo_iso E) path = Returned l ->
      forall i, In i l -> LenovoIso.__init__ E i = Ok i)
  /\
  (forall (O : Os) (E : LenovoExe.Env) (path : string) (l : list string),
      detect_installers O (lenovo_exe E) path = Returned l ->
      forall i, In i l ->
        LenovoExe.__init__ E i
        = match LenovoExe.shutil_which E "innoextract" with
          | Some _ => Ok (i, LenovoExe.mkdtemp E)
          | None => Raise (RuntimeError None)
          end).
Proof.
  split.
  - intros O E path l H i Hi.
    apply (detected_applicable O (lenovo_iso E) path) with (i := i) in H;
      [|reflexivity|exact Hi].
    apply andb_prop in H as [_ H]. unfold LenovoIso.__init__. rewrite H.
    reflexivity.
  - intros O E path l H i Hi.
    apply (detected_applicable O (lenovo_exe E) path) with (i := i) in H;
      [|reflexivity|exact Hi].
    apply andb_prop in H as [_ H]. unfold LenovoExe.__init__. rewrite H.
    reflexivity.
Qed.

(** In the directory of the examples the image and the backup of an image
    are detected, and both are constructed. *)
Lemma detected_installers_construct_witness :
  detect_installers Runs.downloads
    (lenovo_iso (Examples.iso_env Examples.scenario_volume)) "dl"
  = Returned ["dl/bios.iso"; "dl/old.iso.bak"]
  /\ LenovoIso.__init__ (Examples.iso_env Examples.scenario_volume)
       "dl/old.iso.bak" = Ok "dl/old.iso.bak"
  /\ LenovoExe.__init__ (Examples.exe_env Examples.scenario_lines [])
       "dl/setup.exe"
     = Ok ("dl/setup.exe", {| LenovoExe.name := "/tmp/uefiextract_0" |}).
Proof.
  split; [reflexivity|]. split.
  - apply (proj1 detected_installers_construct Runs.downloads
             (Examples.iso_env Examples.scenario_volume) "dl"
             ["dl/bios.iso"; "dl/old.iso.bak"] eq_refl).
    right. left. reflexivity.
  - apply (proj2 detected_installers_construct
             {| os_path_isdir := fun _ => false;
                path_exists := fun _ => true;
                os_listdir := fun _ => [] |}
             (Examples.exe_env Examples.scenario_lines []) "dl/setup.exe"
             ["dl/setup.exe"] eq_refl).
    left. reflexivity.
Defined.

(** ** Output names *)

Lemma rcut_join (p : string) : fst (rcut p) ++ snd (rcut p) = p.
Proof.
  induction p as [|c p IH]; simpl; [reflexivity|].
  destruct (rcut p) as [h t]. simpl in IH. subst p.
  destruct h; [destruct (Ascii.eqb c "/") eqn:Ec|]; simpl; try reflexivity.
Qed.

Lemma rcut_app_name (d s : string) :
  no_slash s = true -> rcut (d ++ s) = (fst (rcut d), snd (rcut d) ++ s).
Proof.
  intros Hs. induction d as [|c d IH].
  - simpl. rewrite (rcut_no_slash _ Hs). reflexivity.
  - change (rcut (String c d ++ s))
      with (let (h, t) := rcut (d ++ s) in
            match h with
            | EmptyString =>
                if Ascii.eqb c "/" then (String c "", t) else ("", String c t)
            | _ => (String c h, t)
            end).
    rewrite IH. cbn [rcut]. destruct (rcut d) as [h t].
    destruct h; [destruct (Ascii.eqb c "/")|]; reflexivity.
Qed.

Lemma rcut_ends_with_slash (d : string) :
  Ascii.eqb (List.last (list_ascii_of_string d) "/"%char) "/" = true ->
  snd (rcut d) = "".
Proof.
  induction d as [|c d IH]; [reflexivity|].
  intros H. assert (J := rcut_join d). cbn [rcut].
  destruct d as [|b d].
  - simpl in *. rewrite H. reflexivity.
  - change (List.last (list_ascii_of_string (String c (String b d))) "/"%char)
      with (List.last (list_ascii_of_string (String b d)) "/"%char) in H.
    specialize (IH H). destruct (rcut (String b d)) as [h t].
    simpl in IH, J. subst t. destruct h as [|a h]; [discriminate J|].
    reflexivity.
Qed.

Lemma gen_filename_name (d i c g : string) :
  gen_filename d i c g = os_path_join d (out_name i c g).
Proof.
  unfold gen_filename, out_name, LenovoIso.basename.
  rewrite !split_tail_is_last_segment. reflexivity.
Qed.

Lemma out_name_no_slash (i c g : string) :
  no_slash g = true -> no_slash (out_name i c g) = true.
Proof.
  intros Hg. unfold out_name, LenovoIso.basename.
  rewrite <- !split_tail_is_last_segment, !no_slash_app, !split_tail_no_slash.
  rewrite Hg. reflexivity.
Qed.

Lemma os_path_join_name (d n : string) :
  no_slash n = true ->
  os_path_join d n
  = match d with
    | EmptyString => n
    | _ => if Ascii.eqb (List.last (list_ascii_of_string d) "/"%char) "/"
           then d ++ n else d ++ "/" ++ n
    end.
Proof.
  intros H. unfold os_path_join. destruct n as [|a n]; [reflexivity|].
  unfold no_slash in H. simpl in H. apply andb_prop in H as [Ha _].
  destruct a as [[] [] [] [] [] [] [] []]; try reflexivity.
  discriminate Ha.
Qed.

Lemma ends_with_slash_iff (d : string) :
  Ascii.eqb (List.last (list_ascii_of_string d) "/"%char) "/" = true <->
  d = "" \/ exists d', d = d' ++ "/".
Proof.
  induction d as [|c d IH].
  - split; [left; reflexivity | reflexivity].
  - destruct d as [|b d].
    + simpl. rewrite Ascii.eqb_eq. split.
      * intros ->. right. exists "". reflexivity.
      * intros [H | [d' H]]; [discriminate H|].
        destruct d' as [|a [|a' d']]; simpl in H; try discriminate H.
        injection H as ->. reflexivity.
    + change (List.last (list_ascii_of_string (String c (String b d))) "/"%char)
        with (List.last (list_ascii_of_string (String b d)) "/"%char).
      rewrite IH. split.
      * intros [H | [d' H]]; [discriminate H|].
        right. exists (String c d'). simpl. rewrite H. reflexivity.
      * intros [H | [d' H]]; [discriminate H|].
        right. destruct d' as [|a d']; [discriminate H|].
        simpl in H. injection H as _ H. exists d'. exact H.
Qed.

Lemma not_ends_with_slash (d : string) :
  Ascii.eqb (List.last (list_ascii_of_string d) "/"%char) "/" = false ->
  d <> "" /\ forall d', d <> d' ++ "/".
Proof.
  intros H. split.
  - intros ->. discriminate H.
  - intros d' Hd.
    assert (Ht : Ascii.eqb (List.last (list_ascii_of_string d) "/"%char) "/"
                 = true) by (apply ends_with_slash_iff; eauto).
    congruence.
Qed.

(** X3.  The output file lies in the destination folder and its name is made of
    the final segments of the two paths and the GUID: the output path is the
    destination folder and the name, joined by a slash exactly when the
    folder is not empty and does not end in one, and the final segment of
    the output path is the name.  No directory of the installer or of the
    capsule enters the output path. *)
Theorem gen_filename_inside_dest (d i c g : string) :
  no_slash g = true ->
  (d = "" \/ (exists d', d = d' ++ "/") ->
   gen_filename d i c g = d ++ out_name i c g)
  /\ (d <> "" -> (forall d', d <> d' ++ "/") ->
      gen_filename d i c g = d ++ "/" ++ out_name i c g)
  /\ LenovoIso.basename (gen_filename d i c g) = out_name i c g.
Proof.
  intros Hg. assert (Hn := @out_name_no_slash i c g Hg).
  rewrite gen_filename_name, (os_path_join_name d _ Hn).
  unfold LenovoIso.basename. rewrite <- split_tail_is_last_segment.
  destruct (Ascii.eqb (List.last (list_ascii_of_string d) "/"%char) "/")
    eqn:E.
  - split; [|split].
    + intros _. destruct d; reflexivity.
    + intros Hne Hns. apply ends_with_slash_iff in E as [E | [d' E]];
        [contradiction | destruct (Hns d' E)].
    + destruct d as [|a d]; [apply split_tail_of_name, Hn|].
      unfold os_path_split.
      rewrite (rcut_app_name _ _ Hn), (rcut_ends_with_slash _ E).
      destruct (fst (rcut (String a d))); reflexivity.
  - destruct (not_ends_with_slash _ E) as [Hne Hns].
    destruct d as [|a d]; [congruence|]. split; [|split].
    + intros [H | [d' H]]; [discriminate H | destruct (Hns d' H)].
    + intros _ _. reflexivity.
    + apply split_tail_after_dir, Hn.
Qed.

(** The folder [out], which does not end in a slash, and the folder
    [out/], which does. *)
Lemma gen_filename_inside_dest_witness :
  gen_filename "out" "dl/bios.iso" "FLASH/SUB1/BIOS.FL1" Trees.guid_1
  = "out" ++ "/" ++ out_name "dl/bios.iso" "FLASH/SUB1/BIOS.FL1" Trees.guid_1
  /\ gen_filename "out/" "dl/bios.iso" "FLASH/SUB1/BIOS.FL1" Trees.guid_1
     = "out/" ++ out_name "dl/bios.iso" "FLASH/SUB1/BIOS.FL1" Trees.guid_1
  /\ LenovoIso.basename
       (gen_filename "out" "dl/bios.iso" "FLASH/SUB1/BIOS.FL1" Trees.guid_1)
     = out_name "dl/bios.iso" "FLASH/SUB1/BIOS.FL1" Trees.guid_1.
Proof.
  split; [|split].
  - apply (proj1 (proj2 (@gen_filename_inside_dest "out" "dl/bios.iso"
                           "FLASH/SUB1/BIOS.FL1" Trees.guid_1 eq_refl))).
    + discriminate.
    + apply (not_ends_with_slash "out"). reflexivity.
  - apply (proj1 (@gen_filename_inside_dest "out/" "dl/bios.iso"
                    "FLASH/SUB1/BIOS.FL1" Trees.guid_1 eq_refl)).
    right. exists "out". reflexivity.
  - apply (proj2 (proj2 (@gen_filename_inside_dest "out" "dl/bios.iso"
                           "FLASH/SUB1/BIOS.FL1" Trees.guid_1 eq_refl))).
Defined.

(** X4.  Output names collide: the underscore that joins the parts may as well
    belong to a part, and an installer gives the same names whatever
    directory it is in. *)
Theorem gen_filename_collisions (d dir i x c g : string) :
  no_slash i = true -> no_slash x = true -> no_slash c = true ->
  gen_filename d (i ++ "_" ++ x) c g = gen_filename d i (x ++ "_" ++ c) g
  /\ gen_filename d (dir ++ "/" ++ i) c g = gen_filename d i c g.
Proof.
  intros Hi Hx Hc. unfold gen_filename. split.
  - assert (H1 : no_slash (i ++ "_" ++ x) = true)
      by (rewrite !no_slash_app, Hi, Hx; reflexivity).
    assert (H2 : no_slash (x ++ "_" ++ c) = true)
      by (rewrite !no_slash_app, Hx, Hc; reflexivity).
    rewrite (split_tail_of_name _ H1), (split_tail_of_name _ H2).
    rewrite (split_tail_of_name _ Hi), (split_tail_of_name _ Hc).
    f_equal. rewrite !append_assoc. reflexivity.
  - rewrite (split_tail_after_dir _ _ Hi), (split_tail_of_name _ Hi).
    reflexivity.
Qed.

Lemma gen_filename_collisions_witness :
  gen_filename "out" ("bios" ++ "_" ++ "v2.iso") "BIOS.FL1" Trees.guid_1
  = gen_filename "out" "bios" ("v2.iso" ++ "_" ++ "BIOS.FL1") Trees.guid_1
  /\ gen_filename "out" ("dl" ++ "/" ++ "bios") "BIOS.FL1" Trees.guid_1
     = gen_filename "out" "bios" "BIOS.FL1" Trees.guid_1.
Proof.
  apply gen_filename_collisions; reflexivity.
Defined.

End Files.

(* ================================================================== *)
(** * Writing the images *)

Module Writing.

Import Py PyFacts PyPath UefiExtract Orchestrator.
Open Scope string_scope.

(** ** The question *)

Lemma ask_answered (prompt : string) (bad rest : list string) (a : string)
  (shown : list event) :
  (forall l, In l bad -> is_answer (lower l) = false) ->
  is_answer (lower a) = true ->
  ask prompt (bad ++ a :: rest)%list shown
  = (rest, (shown ++ repeat (Prompt prompt) (S (List.length bad)))%list,
     Some (lower a)).
Proof.
  intros Hbad Ha. revert shown.
  induction bad as [|b bad IH]; intros shown; simpl.
  - rewrite Ha. reflexivity.
  - rewrite (Hbad b) by (left; reflexivity).
    rewrite IH by (intros l Hl; apply Hbad; right; exact Hl).
    rewrite <- app_assoc. reflexivity.
Qed.

Lemma ask_unanswered (prompt : string) (lines : list string)
  (shown : list event) :
  (forall l, In l lines -> is_answer (lower l) = false) ->
  ask prompt lines shown
  = ([], (shown ++ repeat (Prompt prompt) (S (List.length lines)))%list,
     None).
Proof.
  intros Hbad. revert shown.
  induction lines as [|b lines IH]; intros shown; simpl.
  - reflexivity.
  - rewrite (Hbad b) by (left; reflexivity).
    rewrite IH by (intros l Hl; apply Hbad; right; exact Hl).
    rewrite <- app_assoc. reflexivity.
Qed.

Lemma ask_consumes (prompt : string) (lines lines' : list string)
  (shown shown' : list event) (a : string) :
  ask prompt lines shown = (lines', shown', Some a) ->
  S (List.length lines') <= List.length lines.
Proof.
  revert shown. induction lines as [|b lines IH]; intros shown H; simpl in H.
  - discriminate H.
  - destruct (is_answer (lower b)).
    + injection H as <- _ _. simpl. lia.
    + apply IH in H. simpl. lia.
Qed.

(** ** One file *)

(** X5.  Where the output file exists, it is replaced only after an answer [y]
    in either case: lines that are no answer are asked again, and on [n] or
    an empty line the file stays as it was.  The lines up to the answer are
    taken from the input. *)
Theorem write_file_existing (out_dir installer_path caps guid : string)
  (data old : bytes) (w : World) (bad rest : list string) (a : string) :
  files w (gen_filename out_dir installer_path caps guid) = Some old ->
  stdin w = (bad ++ a :: rest)%list ->
  (forall l, In l bad -> is_answer (lower l) = false) ->
  is_answer (lower a) = true ->
  exists w',
    write_file out_dir installer_path caps guid data w = (w', Returned tt)
    /\ stdin w' = rest
    /\ files w' (gen_filename out_dir installer_path caps guid)
       = Some (if String.eqb (lower a) "y" then data else old)
    /\ forall p, p <> gen_filename out_dir installer_path caps guid ->
                 files w' p = files w p.
Proof.
  intros Hold Hin Hbad Ha. unfold write_file, os_path_exists.
  rewrite Hold, Hin, (ask_answered _ bad rest a _ Hbad Ha).
  unfold is_answer in Ha. unfold is_no.
  destruct (String.eqb (lower a) "y") eqn:Ey.
  - apply String.eqb_eq in Ey. rewrite Ey. simpl.
    eexists. split; [reflexivity|]. simpl. split; [reflexivity|].
    unfold write_bytes. rewrite String.eqb_refl. split; [reflexivity|].
    intros p Hp. apply String.eqb_neq in Hp. rewrite Hp. reflexivity.
  - simpl in Ha. rewrite Ha.
    eexists. split; [reflexivity|]. simpl. auto.
Qed.

(** The file of an earlier run, an unclear line and then [Y]. *)
Lemma write_file_existing_witness :
  exists w',
    write_file "out" "dl/bios.iso" "BIOS.FL1" Trees.guid_1 [Byte.x01]
      Runs.busy_world = (w', Returned tt)
    /\ stdin w' = []
    /\ files w' (gen_filename "out" "dl/bios.iso" "BIOS.FL1" Trees.guid_1)
       = Some (if String.eqb (lower "Y") "y" then [Byte.x01] else [Byte.xff])
    /\ forall p, p <> gen_filename "out" "dl/bios.iso" "BIOS.FL1" Trees.guid_1 ->
                 files w' p = files Runs.busy_world p.
Proof.
  apply (@write_file_existing "out" "dl/bios.iso" "BIOS.FL1" Trees.guid_1
           [Byte.x01] [Byte.xff] Runs.busy_world ["maybe"] [] "Y").
  - reflexivity.
  - reflexivity.
  - intros l [<-|[]]. reflexivity.
  - reflexivity.
Defined.

(** X6.  Where the output file exists and no line of the input is an answer, the
    script asks once per line and once more, then [input()] raises
    [EOFError]; the files stay as they were. *)
Theorem write_file_end_of_input (out_dir installer_path caps guid : string)
  (data old : bytes) (w : World) :
  files w (gen_filename out_dir installer_path caps guid) = Some old ->
  (forall l, In l (stdin w) -> is_answer (lower l) = false) ->
  exists w',
    write_file out_dir installer_path caps guid data w = (w', Raised EOFError)
    /\ files w' = files w
    /\ stdin w' = []
    /\ List.length (terminal w')
       = List.length (terminal w) + S (List.length (stdin w)).
Proof.
  intros Hold Hbad. unfold write_file, os_path_exists.
  rewrite Hold, (ask_unanswered _ _ _ Hbad).
  eexists. split; [reflexivity|]. cbn [files stdin terminal].
  split; [reflexivity|]. split; [reflexivity|].
  rewrite length_app, repeat_length. reflexivity.
Qed.

Lemma write_file_end_of_input_witness :
  exists w',
    write_file "out" "dl/bios.iso" "BIOS.FL1" Trees.guid_1 [Byte.x01]
      {| files := files Runs.busy_world;
         stdin := ["maybe"; "later"];
         terminal := [] |}
    = (w', Raised EOFError)
    /\ files w' = files Runs.busy_world
    /\ stdin w' = []
    /\ List.length (terminal w') = 0 + 3.
Proof.
  apply (@write_file_end_of_input "out" "dl/bios.iso" "BIOS.FL1" Trees.guid_1
           [Byte.x01] [Byte.xff]
           {| files := files Runs.busy_world;
              stdin := ["maybe"; "later"];
              terminal := [] |}).
  - reflexivity.
  - intros l [<-|[<-|[]]]; reflexivity.
Defined.

(** What [write_file] does to a path: nothing, or it is the output path and
    now holds the data. *)
Lemma write_file_changes (out_dir installer_path caps guid : string)
  (data : bytes) (w w' : World) (r : outcome unit) (p : string) :
  write_file out_dir installer_path caps guid data w = (w', r) ->
  files w' p = files w p
  \/ (p = gen_filename out_dir installer_path caps guid
      /\ files w' p = Some data).
Proof.
  unfold write_file.
  assert (Hw :
             files w' = write_bytes (files w)
                          (gen_filename out_dir installer_path caps guid) data ->
             files w' p = files w p
             \/ (p = gen_filename out_dir installer_path caps guid
                 /\ files w' p = Some data)).
  { intros E. rewrite E. unfold write_bytes.
    destruct (String.eqb p _) eqn:Ep; [|left; reflexivity].
    apply String.eqb_eq in Ep. right. auto. }
  destruct (os_path_exists _ _).
  - destruct (ask _ _ _) as [[lines shown] [a|]].
    + destruct (is_no a); intros H; injection H as <- _.
      * left. reflexivity.
      * apply Hw. reflexivity.
    + intros H. injection H as <- _. left. reflexivity.
  - intros H. injection H as <- _. apply Hw. reflexivity.
Qed.

Lemma write_file_returned (out_dir installer_path caps guid : string)
  (data : bytes) (w w' : World) :
  write_file out_dir installer_path caps guid data w = (w', Returned tt) ->
  (files w (gen_filename out_dir installer_path caps guid) = None ->
   stdin w' = stdin w
   /\ files w' (gen_filename out_dir installer_path caps guid) = Some data)
  /\ (files w (gen_filename out_dir installer_path caps guid) <> None ->
      S (List.length (stdin w')) <= List.length (stdin w)
      /\ files w' (gen_filename out_dir installer_path caps guid) <> None).
Proof.
  unfold write_file, os_path_exists.
  destruct (files w (gen_filename out_dir installer_path caps guid))
    as [old|] eqn:Eold.
  - destruct (ask _ _ _) as [[lines shown] [a|]] eqn:Eask;
      [|intros H; discriminate H].
    apply ask_consumes in Eask.
    destruct (is_no a); intros H; injection H as <-; simpl;
      (split; [intros E; discriminate E|]); intros _; (split; [exact Eask|]).
    + rewrite Eold. discriminate.
    + unfold write_bytes. rewrite String.eqb_refl. discriminate.
  - intros H. injection H as <-. simpl. split; [|congruence].
    intros _. split; [reflexivity|].
    unfold write_bytes. rewrite String.eqb_refl. reflexivity.
Qed.

(** ** The images of one GUID *)

Lemma write_images_existing (out_dir installer_path caps guid : string)
  (images : list FirmwareObject) (w w' : World) :
  files w (gen_filename out_dir installer_path caps guid) <> None ->
  write_images out_dir installer_path caps guid images w = (w', Returned tt) ->
  files w' (gen_filename out_dir installer_path caps guid) <> None
  /\ List.length (stdin w') + List.length images <= List.length (stdin w)
  /\ (files w' (gen_filename out_dir installer_path caps guid)
      = files w (gen_filename out_dir installer_path caps guid)
      \/ exists pe, In pe images
           /\ files w' (gen_filename out_dir installer_path caps guid)
              = Some (data pe)).
Proof.
  revert w. induction images as [|pe rest IH]; intros w Hex H.
  - simpl in H. injection H as <-. simpl. split; [exact Hex|].
    split; [lia | left; reflexivity].
  - cbn [write_images] in H.
    destruct (write_file out_dir installer_path caps guid (data pe) w)
      as [w1 [[]|e]] eqn:E1; [|discriminate H].
    destruct (write_file_returned _ _ _ _ _ _ E1) as [_ Hret].
    destruct (Hret Hex) as [Hlen Hex1].
    destruct (IH w1 Hex1 H) as (Hex' & Hlen' & Hfile).
    split; [exact Hex'|]. split; [simpl; lia|].
    destruct Hfile as [Hsame | (pe' & Hin & Hpe')].
    + rewrite Hsame.
      destruct (write_file_changes _ _ _ _ _ _
                  (gen_filename out_dir installer_path caps guid) E1)
        as [Hs | [_ Hd]].
      * left. exact Hs.
      * right. exists pe. split; [left; reflexivity | exact Hd].
    + right. exists pe'. split; [right; exact Hin | exact Hpe'].
Qed.

(** X7.  The images of one GUID in one capsule share one output file.  Where the
    file is absent and there are images, a run that returns leaves the data
    of exactly one of them in it, and it has taken at least one line of
    input for every image after the first. *)
Theorem one_image_per_name (out_dir installer_path caps guid : string)
  (pe0 : FirmwareObject) (rest : list FirmwareObject) (w w' : World) :
  files w (gen_filename out_dir installer_path caps guid) = None ->
  write_images out_dir installer_path caps guid (pe0 :: rest) w
  = (w', Returned tt) ->
  (exists pe, In pe (pe0 :: rest)
     /\ files w' (gen_filename out_dir installer_path caps guid)
        = Some (data pe))
  /\ List.length (stdin w') + List.length rest <= List.length (stdin w).
Proof.
  intros Habs H. cbn [write_images] in H.
  destruct (write_file out_dir installer_path caps guid (data pe0) w)
    as [w1 [[]|e]] eqn:E1; [|discriminate H].
  destruct (write_file_returned _ _ _ _ _ _ E1) as [Hret _].
  destruct (Hret Habs) as [Hin Hd].
  assert (Hex1 : files w1 (gen_filename out_dir installer_path caps guid)
                 <> None) by (rewrite Hd; discriminate).
  destruct (write_images_existing _ _ _ _ _ _ Hex1 H) as (_ & Hlen & Hfile).
  split; [|rewrite <- Hin; exact Hlen].
  destruct Hfile as [Hsame | (pe & Hpe & Hf)].
  - exists pe0. split; [left; reflexivity|]. rewrite Hsame. exact Hd.
  - exists pe. split; [right; exact Hpe | exact Hf].
Qed.

(** Two images and the answer [n]: the first image stays. *)
Lemma one_image_per_name_witness :
  (exists pe,
      In pe [Trees.image [Byte.x01] []; Trees.image [Byte.x02] []]
      /\ files
           (fst (write_images "out" "dl/bios.iso" "BIOS.FL1" Trees.guid_1
                   [Trees.image [Byte.x01] []; Trees.image [Byte.x02] []]
                   {| files := Examples.no_files;
                      stdin := ["n"];
                      terminal := [] |}))
           (gen_filename "out" "dl/bios.iso" "BIOS.FL1" Trees.guid_1)
         = Some (data pe))
  /\ List.length
       (stdin
          (fst (write_images "out" "dl/bios.iso" "BIOS.FL1" Trees.guid_1
                  [Trees.image [Byte.x01] []; Trees.image [Byte.x02] []]
                  {| files := Examples.no_files;
                     stdin := ["n"];
                     terminal := [] |})))
     + 1 <= 1.
Proof.
  apply (@one_image_per_name "out" "dl/bios.iso" "BIOS.FL1" Trees.guid_1
           (Trees.image [Byte.x01] []) [Trees.image [Byte.x02] []]
           {| files := Examples.no_files; stdin := ["n"]; terminal := [] |}).
  - reflexivity.
  - reflexivity.
Defined.

(** ** One capsule *)








End Writing.

(* ================================================================== *)
(** * Order of keys in the dictionaries *)

Module KeyOrder.

Import Py PyFacts PyPath UefiExtract.
Open Scope string_scope.

Lemma mem_app (x : string) (l1 l2 : list string) :
  mem x (l1 ++ l2) = mem x l1 || mem x l2.
Proof. unfold mem. apply existsb_app. Qed.

Lemma contains_mem (V : Type) (d : dict V) (k : string) :
  contains d k = mem k (keys d).
Proof.
  apply eq_true_iff_eq. rewrite contains_iff_key, TreeSearch.mem_In.
  reflexivity.
Qed.

Lemma filter_fresh_snoc (kd l : list string) (k : string) :
  filter (fun y => negb (mem y (kd ++ [k]))) l
  = filter (fun y => negb (mem y kd))
           (filter (fun y => negb (String.eqb y k)) l).
Proof.
  induction l as [|y l IH]; simpl; [reflexivity|].
  rewrite mem_app. unfold mem at 2. simpl. rewrite orb_false_r.
  destruct (String.eqb y k) eqn:Ek; simpl.
  - rewrite orb_true_r. simpl. exact IH.
  - rewrite orb_false_r. destruct (mem y kd); simpl; rewrite IH; reflexivity.
Qed.

Lemma filter_fresh_known (kd l : list string) (k : string) :
  mem k kd = true ->
  filter (fun y => negb (mem y kd))
         (filter (fun y => negb (String.eqb y k)) l)
  = filter (fun y => negb (mem y kd)) l.
Proof.
  intros Hk. induction l as [|y l IH]; simpl; [reflexivity|].
  destruct (String.eqb y k) eqn:Ek; simpl.
  - apply String.eqb_eq in Ek. subst y. rewrite Hk. simpl. exact IH.
  - rewrite IH. reflexivity.
Qed.

Section Fold.
Variables (V X : Type) (key : X -> string) (step : dict V -> X -> dict V).
Hypothesis keys_step : forall d x,
  keys (step d x)
  = if mem (key x) (keys d) then keys d else (keys d ++ [key x])%list.

(** A loop that adds the key of each element, if it is new, lists the keys
    in the order of their first occurrence. *)
Lemma keys_fold (l : list X) (d : dict V) :
  keys (fold_left step l d)
  = (keys d ++ filter (fun y => negb (mem y (keys d)))
                      (first_occurrences (map key l)))%list.
Proof.
  revert d. induction l as [|x l IH]; intros d; simpl.
  - rewrite app_nil_r. reflexivity.
  - rewrite IH, keys_step. destruct (mem (key x) (keys d)) eqn:Ek; simpl.
    + rewrite (filter_fresh_known _ _ _ Ek). reflexivity.
    + rewrite <- app_assoc. simpl.
      rewrite filter_fresh_snoc. reflexivity.
Qed.
End Fold.

Lemma keys_of_pairs (V : Type) (pairs : list (string * V)) :
  keys (of_pairs pairs) = first_occurrences (map fst pairs).
Proof.
  unfold of_pairs.
  rewrite (keys_fold fst (fun d kv => setitem d (fst kv) (snd kv))).
  - simpl. induction (first_occurrences (map fst pairs)) as [|y l IH];
      simpl; [reflexivity|]. rewrite IH. reflexivity.
  - intros d x. rewrite keys_setitem, contains_mem. reflexivity.
Qed.

Lemma keys_add_found (pes : MatchResult) (x : string * FirmwareObject) :
  keys (add_found pes x)
  = if mem (fst x) (keys pes) then keys pes else (keys pes ++ [fst x])%list.
Proof.
  destruct x as [g f]. rewrite <- contains_mem. unfold add_found.
  cbn [fst]. destruct (contains pes g) eqn:Ec; cbn [negb].
  - unfold contains in Ec. destruct (get pes g) as [l|] eqn:Eg;
      [|discriminate Ec].
    rewrite keys_setitem. unfold contains. rewrite Eg. reflexivity.
  - rewrite get_setitem, String.eqb_refl, !keys_setitem, Ec.
    unfold contains. rewrite get_setitem, String.eqb_refl. reflexivity.
Qed.

Lemma keys_fold_add_found (found : list (string * FirmwareObject)) :
  keys (fold_left add_found found []) = first_occurrences (map fst found).
Proof.
  rewrite (keys_fold fst add_found).
  - simpl. induction (first_occurrences (map fst found)) as [|y l IH];
      simpl; [reflexivity|]. rewrite IH. reflexivity.
  - intros d x. apply keys_add_found.
Qed.

(** X10.  In both backends the entries are listed in the order in which their
    names first occur among the candidate paths, each name once. *)
Theorem entries_in_candidate_order :
  (forall (E : LenovoIso.Env) (iso_path : string) (fp : LenovoIso.FileParser),
      LenovoIso.__enter__ E iso_path = Ok fp ->
      exists paths,
        LenovoIso._find_candidate_capsules (LenovoIso.volume fp) = Ok paths
        /\ LenovoIso.list_capsules fp
           = first_occurrences (map LenovoIso.basename paths))
  /\
  (forall (E : LenovoExe.Env) (exe_path : string)
          (tempdir : LenovoExe.TemporaryDirectory) (fp : LenovoExe.FileParser),
      LenovoExe.__enter__ E exe_path tempdir = Ok fp ->
      exists paths,
        LenovoExe._find_candidate_capsules E exe_path = Ok paths
        /\ LenovoExe.list_capsules fp
           = first_occurrences (map LenovoExe.basename paths)).
Proof.
  split.
  - intros E iso_path fp H.
    apply Discovery.enter_iso_inv in H as (paths & Hp & Hc).
    exists paths. split; [exact Hp|].
    unfold LenovoIso.list_capsules. rewrite Hc, keys_of_pairs, map_map.
    reflexivity.
  - intros E exe td fp H.
    apply Discovery.enter_exe_inv in H as (paths & Hp & _ & _ & Hc).
    exists paths. split; [exact Hp|].
    unfold LenovoExe.list_capsules. rewrite Hc, keys_of_pairs, map_map.
    reflexivity.
Qed.

Lemma entries_in_candidate_order_witness :
  (exists paths,
      LenovoIso._find_candidate_capsules (LenovoIso.volume Examples.twin_iso)
      = Ok paths
      /\ LenovoIso.list_capsules Examples.twin_iso
         = first_occurrences (map LenovoIso.basename paths))
  /\
  (exists paths,
      LenovoExe._find_candidate_capsules
        (Examples.exe_env Examples.twin_lines []) "bios.exe" = Ok paths
      /\ LenovoExe.list_capsules Examples.twin_exe
         = first_occurrences (map LenovoExe.basename paths)).
Proof.
  split.
  - apply (proj1 entries_in_candidate_order
             (Examples.iso_env Examples.twin_volume) "bios.iso").
    reflexivity.
  - apply (proj2 entries_in_candidate_order
             (Examples.exe_env Examples.twin_lines []) "bios.exe"
             {| LenovoExe.name := "/tmp/uefiextract_0" |}).
    reflexivity.
Defined.

End KeyOrder.

(* ================================================================== *)
(** * What the search returns *)

Module Results.

Import Py PyFacts PyPath UefiExtract Traversal.
Open Scope string_scope.

Lemma find_PEs_Ok (AutoParser : bytes -> UefiParser) (content : bytes)
  (guids : list string) (pes : MatchResult) :
  find_PEs AutoParser content guids = Ok pes ->
  pes = fold_left add_found
          (find_file_by_guid (parse (AutoParser content)) guids) [].
Proof.
  unfold find_PEs. destruct (String.eqb _ "unknown"); [discriminate|].
  destruct (List.length _ =? 0)%nat; [discriminate|].
  intros H. injection H as <-. reflexivity.
Qed.

Lemma found_is_wanted (t : FirmwareObject) (guids : list string) (g : string)
  (file : FirmwareObject) :
  In (g, file) (find_file_by_guid t guids) ->
  In file (below t) /\ g = get_or_empty (info_guid file)
  /\ is_wanted_file (map lower guids) file = true.
Proof.
  unfold find_file_by_guid. rewrite TreeSearch.find_file_by_guid_core_spec.
  intros H. apply in_map_iff in H as (n & Hn & Hin).
  injection Hn as <- <-. apply filter_In in Hin as [Hin Hw]. auto.
Qed.

(** X11.  The GUIDs of the result are listed in the order in which the tree has
    their first file, in pre-order, whatever the order of the targets; each
    is the lower-case form of a target. *)
Theorem result_keys (AutoParser : bytes -> UefiParser) (content : bytes)
  (guids : list string) (pes : MatchResult) :
  find_PEs AutoParser content guids = Ok pes ->
  keys pes
  = first_occurrences
      (map fst (find_file_by_guid (parse (AutoParser content)) guids))
  /\ forall k, In k (keys pes) -> exists g, In g guids /\ k = lower g.
Proof.
  intros H. apply find_PEs_Ok in H. subst pes.
  rewrite KeyOrder.keys_fold_add_found. split; [reflexivity|].
  intros k Hk.
  assert (Hin : In k (map fst (find_file_by_guid
                                 (parse (AutoParser content)) guids))).
  { clear - Hk. induction (map fst _) as [|x l IH]; [destruct Hk|].
    simpl in Hk. destruct Hk as [<-|Hk]; [left; reflexivity|].
    apply filter_In in Hk as [Hk _]. right. exact (IH Hk). }
  apply in_map_iff in Hin as ([g file] & <- & Hin).
  apply found_is_wanted in Hin as (_ & -> & Hw).
  unfold is_wanted_file in Hw. apply andb_prop in Hw as [_ Hm].
  apply TreeSearch.mem_In, in_map_iff in Hm as (g' & Hg' & Hin').
  exists g'. simpl. auto.
Qed.

(** Targets given in upper case and in the opposite order of the tree. *)
Lemma result_keys_witness :
  keys [(Trees.guid_1,
         [Trees.image [Byte.x01] []; Trees.image [Byte.x02] []]);
        (Trees.guid_2, [Trees.image [Byte.x03] []])]
  = first_occurrences
      (map fst (find_file_by_guid Trees.scenario_tree
                  [Trees.guid_2; Trees.guid_1]))
  /\ forall k,
      In k (keys [(Trees.guid_1,
                   [Trees.image [Byte.x01] []; Trees.image [Byte.x02] []]);
                  (Trees.guid_2, [Trees.image [Byte.x03] []])]) ->
      exists g, In g [Trees.guid_2; Trees.guid_1] /\ k = lower g.
Proof.
  apply (@result_keys (Trees.parser_of Trees.scenario_tree) []
           [Trees.guid_2; Trees.guid_1]).
  reflexivity.
Defined.

Lemma preorder_trans (t f x : FirmwareObject) :
  In f (preorder t) -> In x (preorder f) -> In x (preorder t).
Proof.
  induction t as [ty g a d objs IH] using FirmwareObject_ind.
  cbn [preorder]. intros [<-|Hf] Hx; [exact Hx|]. right.
  apply in_flat_map in Hf as (obj & Hobj & Hf). apply in_flat_map.
  exists obj. split; [exact Hobj|].
  rewrite Forall_forall in IH. exact (IH obj Hobj Hf Hx).
Qed.

Lemma below_trans (t f x : FirmwareObject) :
  In f (below t) -> In x (preorder f) -> In x (below t).
Proof.
  unfold below. intros Hf Hx.
  apply in_flat_map in Hf as (obj & Hobj & Hf). apply in_flat_map.
  exists obj. split; [exact Hobj | exact (preorder_trans _ _ _ Hf Hx)].
Qed.

(** X12.  Every image of the result is a PE32 node of the parsed tree, in the
    subtree of a file that was found for the GUID it is listed under; the
    root is never among the images. *)
Theorem result_images (AutoParser : bytes -> UefiParser) (content : bytes)
  (guids : list string) (pes : MatchResult) (k : string)
  (images : list FirmwareObject) (pe : FirmwareObject) :
  find_PEs AutoParser content guids = Ok pes ->
  get pes k = Some images ->
  In pe images ->
  is_PE32 pe = true
  /\ In pe (below (parse (AutoParser content)))
  /\ exists file,
       In (k, file) (find_file_by_guid (parse (AutoParser content)) guids)
       /\ In pe (preorder file).
Proof.
  intros H Hget Hpe. apply find_PEs_Ok in H. subst pes.
  rewrite TreeSearch.get_fold_add_found in Hget. simpl in Hget.
  destruct (existsb _ _); [|discriminate Hget].
  injection Hget as <-. unfold images_for in Hpe.
  apply in_flat_map in Hpe as ([g file] & Hin & Hpe).
  apply filter_In in Hin as [Hin Hk]. simpl in Hk, Hpe.
  apply String.eqb_eq in Hk. subst g.
  rewrite TreeSearch.find_PE32_spec in Hpe.
  apply filter_In in Hpe as [Hpe Himg].
  apply TreeSearch.preorder_to_images_incl in Hpe.
  split; [exact Himg|]. split.
  - apply found_is_wanted in Hin as (Hb & _).
    exact (below_trans _ _ _ Hb Hpe).
  - exists file. auto.
Qed.

Lemma result_images_witness :
  is_PE32 (Trees.image [Byte.x02] []) = true
  /\ In (Trees.image [Byte.x02] []) (below Trees.scenario_tree)
  /\ exists file,
       In (Trees.guid_1, file)
          (find_file_by_guid Trees.scenario_tree [Trees.guid_1])
       /\ In (Trees.image [Byte.x02] []) (preorder file).
Proof.
  apply (@result_images (Trees.parser_of Trees.scenario_tree) []
           [Trees.guid_1]
           [(Trees.guid_1,
             [Trees.image [Byte.x01] []; Trees.image [Byte.x02] []])]
           Trees.guid_1
           [Trees.image [Byte.x01] []; Trees.image [Byte.x02] []]).
  - reflexivity.
  - reflexivity.
  - right. left. reflexivity.
Defined.

(** X13.  With no target the search of a recognised capsule raises
    [FileNotFoundError], whatever the tree. *)
Theorem no_target_not_found (AutoParser : bytes -> UefiParser)
  (content : bytes) :
  parser_type (AutoParser content) <> "unknown" ->
  find_PEs AutoParser content [] = Raise FileNotFoundError.
Proof.
  intros H. apply String.eqb_neq in H. unfold find_PEs, find_file_by_guid.
  rewrite H, TreeSearch.find_file_by_guid_core_spec. simpl map at 2.
  replace (filter (is_wanted_file []) _) with (@nil FirmwareObject);
    [reflexivity|].
  induction (below (parse (AutoParser content))) as [|n l IH];
    [reflexivity|].
  simpl. unfold is_wanted_file at 1. simpl. rewrite andb_false_r. exact IH.
Qed.

Lemma no_target_not_found_witness :
  find_PEs (Trees.parser_of Trees.scenario_tree) [] []
  = Raise FileNotFoundError.
Proof. apply no_target_not_found. discriminate. Defined.

End Results.

(* ================================================================== *)
(** * The listing of the optical image *)

Module Listing.

Import Py PyFacts PyPath Layout.
Open Scope string_scope.

Lemma insert_sorted_Sorted (x : string) (l : list string) :
  Sorted (fun a b => String.leb a b = true) l ->
  Sorted (fun a b => String.leb a b = true) (insert_sorted x l).
Proof.
  induction 1 as [|y l Hs IH Hhd]; simpl.
  - repeat constructor.
  - destruct (String.leb x y) eqn:E.
    + constructor; [constructor; assumption | constructor; exact E].
    + constructor; [exact IH|].
      assert (Hyx : String.leb y x = true).
      { destruct (String.leb_total x y) as [H|H]; [congruence | exact H]. }
      destruct Hhd as [|z l' Hyz]; simpl.
      * constructor. exact Hyx.
      * destruct (String.leb x z); constructor; assumption.
Qed.

Lemma sort_Sorted (l : list string) :
  Sorted (fun a b => String.leb a b = true) (sort l).
Proof.
  induction l as [|x l IH]; simpl; [constructor|].
  apply insert_sorted_Sorted, IH.
Qed.

(** X14.  The candidate paths of the optical image come in ascending order of
    their code points. *)
Theorem iso_candidates_sorted (v : LenovoIso.Volume) (paths : list string) :
  LenovoIso._find_candidate_capsules v = Ok paths ->
  Sorted (fun a b => String.leb a b = true) paths.
Proof.
  unfold LenovoIso._find_candidate_capsules. intros H.
  destruct (LenovoIso.opendir v "FLASH"); [|discriminate H]. simpl in H.
  apply result_bind_Ok in H as (file_info & _ & H). injection H as <-.
  apply sort_Sorted.
Qed.

(** The sub-directories are listed as B, A; the paths come as A, B. *)
Lemma iso_candidates_sorted_witness :
  Sorted (fun a b => String.leb a b = true)
         ["FLASH/A/X.FL1"; "FLASH/B/X.FL1"].
Proof.
  apply (@iso_candidates_sorted Examples.twin_volume). reflexivity.
Defined.

Lemma scan_subdirs_succeeds (v : LenovoIso.Volume) (top : string)
  (subdirs acc : list string) :
  (exists out, LenovoIso.scan_subdirs v top subdirs acc = Ok out) <->
  (forall d, In d subdirs -> d <> "." -> d <> ".." ->
             LenovoIso.opendir v (join "/" [top; d]) <> None).
Proof.
  revert acc. induction subdirs as [|d rest IH]; intros acc.
  - simpl. split; [intros _ d [] | eauto].
  - cbn [LenovoIso.scan_subdirs].
    destruct (String.eqb d "." || String.eqb d "..") eqn:Edots.
    + rewrite IH. split.
      * intros H d' [<-|Hd'] Hn1 Hn2; [|exact (H d' Hd' Hn1 Hn2)].
        apply orb_true_iff in Edots as [E|E]; apply String.eqb_eq in E;
          contradiction.
      * intros H d' Hd'. apply H. right. exact Hd'.
    + apply orb_false_iff in Edots as [E1 E2].
      apply String.eqb_neq in E1, E2.
      destruct (LenovoIso.opendir v (join "/" [top; d])) as [files|] eqn:Eo;
        simpl.
      * rewrite IH. split.
        -- intros H d' [<-|Hd'] Hn1 Hn2; [|exact (H d' Hd' Hn1 Hn2)].
           simpl in Eo. simpl. rewrite Eo. discriminate.
        -- intros H d' Hd'. apply H. right. exact Hd'.
      * split; [intros [out H]; discriminate H|].
        intros H. exfalso.
        apply (H d); [left; reflexivity | exact E1 | exact E2 | exact Eo].
Qed.

(** X15.  The listing of a volume succeeds exactly when [FLASH] can be opened and
    so can each of its sub-directories other than [.] and [..]; entries of
    [FLASH] that are not directories play no part. *)
Theorem iso_listing_succeeds (v : LenovoIso.Volume) :
  (exists paths, LenovoIso._find_candidate_capsules v = Ok paths) <->
  (exists top,
      LenovoIso.opendir v "FLASH" = Some top
      /\ forall d, In d top -> LenovoIso.IsDir d = true ->
                   LenovoIso.Name d <> "." -> LenovoIso.Name d <> ".." ->
                   LenovoIso.opendir v (join "/" ["FLASH"; LenovoIso.Name d])
                   <> None).
Proof.
  unfold LenovoIso._find_candidate_capsules.
  destruct (LenovoIso.opendir v "FLASH") as [top|] eqn:Etop; simpl.
  - assert (Hscan := scan_subdirs_succeeds v "FLASH"
                       (map LenovoIso.Name (filter LenovoIso.IsDir top)) []).
    split.
    + intros [paths H]. apply result_bind_Ok in H as (out & Hout & _).
      exists top. split; [reflexivity|]. intros d Hd Hdir Hn1 Hn2.
      apply (proj1 Hscan); [eauto | | exact Hn1 | exact Hn2].
      apply in_map_iff. exists d. split; [reflexivity|].
      apply filter_In. auto.
    + intros (top' & Ht & H). injection Ht as <-.
      destruct (proj2 Hscan) as [out Hout].
      * intros dn Hdn Hn1 Hn2.
        apply in_map_iff in Hdn as (d & <- & Hd).
        apply filter_In in Hd as [Hd Hdir]. apply H; assumption.
      * rewrite Hout. simpl. eauto.
  - split; [intros [paths H]; discriminate H|].
    intros (top & H & _). discriminate H.
Qed.

(** X16.  For a partition table of any length, entering the container raises
    [ValueError] exactly when the first entry starts at sector 0 or some
    later entry does not. *)
Theorem partition_table_of_any_length (E : LenovoIso.Env) (iso_path : string)
  (p0 : LenovoIso.PartitionEntry) (others : list LenovoIso.PartitionEntry) :
  LenovoIso.partitions (LenovoIso.from_bytes E (LenovoIso.et_extract E iso_path))
  = p0 :: others ->
  (LenovoIso.__enter__ E iso_path = Raise ValueError <->
   LenovoIso.lba_start p0 = 0%N
   \/ exists p, In p others /\ LenovoIso.lba_start p <> 0%N).
Proof.
  intros Hparts. unfold LenovoIso.__enter__. rewrite Hparts. simpl.
  assert (Hany :
    existsb (fun p => negb (LenovoIso.lba_start p =? 0)%N) others = true
    <-> exists p, In p others /\ LenovoIso.lba_start p <> 0%N).
  { rewrite existsb_exists. split; intros (p & Hp & Hn); exists p;
      (split; [exact Hp|]).
    - apply negb_true_iff, N.eqb_neq in Hn. exact Hn.
    - apply negb_true_iff, N.eqb_neq. exact Hn. }
  destruct ((LenovoIso.lba_start p0 =? 0)%N
            || existsb (fun p => negb (LenovoIso.lba_start p =? 0)%N) others)
    eqn:Ec.
  - split; [|reflexivity]. intros _.
    apply orb_true_iff in Ec as [Ec|Ec].
    + left. apply N.eqb_eq, Ec.
    + right. apply Hany, Ec.
  - apply orb_false_iff in Ec as [Ec0 Ecs]. split.
    + intros H.
      destruct (LenovoIso._find_candidate_capsules _) eqn:Ef; simpl in H;
        [discriminate H|].
      apply Partition.find_candidate_capsules_raises in Ef. congruence.
    + intros [H0 | Hp].
      * apply N.eqb_eq in H0. congruence.
      * apply Hany in Hp. congruence.
Qed.

(** A table of two entries, the second populated. *)
Lemma partition_table_of_any_length_witness :
  LenovoIso.__enter__
    {| LenovoIso.os_path_isfile := fun _ => true;
       LenovoIso.et_extract := fun _ => repeat Byte.x00 1024;
       LenovoIso.from_bytes := fun _ =>
         {| LenovoIso.partitions :=
              [ {| LenovoIso.lba_start := 1 |};
                {| LenovoIso.lba_start := 64 |} ] |};
       LenovoIso.vopen := fun _ => Examples.scenario_volume |}
    "bios.iso" = Raise ValueError
  <-> 1%N = 0%N
      \/ exists p, In p [ {| LenovoIso.lba_start := 64 |} ]
                   /\ LenovoIso.lba_start p <> 0%N.
Proof.
  apply (@partition_table_of_any_length
           {| LenovoIso.os_path_isfile := fun _ => true;
              LenovoIso.et_extract := fun _ => repeat Byte.x00 1024;
              LenovoIso.from_bytes := fun _ =>
                {| LenovoIso.partitions :=
                     [ {| LenovoIso.lba_start := 1 |};
                       {| LenovoIso.lba_start := 64 |} ] |};
              LenovoIso.vopen := fun _ => Examples.scenario_volume |}
           "bios.iso" {| LenovoIso.lba_start := 1 |}
           [ {| LenovoIso.lba_start := 64 |} ]).
  reflexivity.
Defined.

End Listing.

(* ================================================================== *)
(** * Reading a capsule in steps *)

Module Reading.

Import Py.
Open Scope string_scope.




End Reading.

(* ================================================================== *)
(** * The listing of the installer archive *)

Module ArchiveListing.

Import Py PyFacts.
Open Scope string_scope.

Lemma scan_lines_succeeds (lines acc : list string) :
  (exists out, LenovoExe.scan_lines lines acc = Ok out) <->
  (forall line, In line lines ->
                re_search LenovoExe.BIOS_CAPSULE_EXTENSION line = true ->
                nth_error (split_ws line) 1 <> None).
Proof.
  revert acc. induction lines as [|line rest IH]; intros acc.
  - simpl. split; [intros _ l [] | eauto].
  - cbn [LenovoExe.scan_lines].
    destruct (re_search LenovoExe.BIOS_CAPSULE_EXTENSION line) eqn:Ere.
    + destruct (nth_error (split_ws line) 1) as [field|] eqn:Ef;
        cbn [bind of_option].
      * rewrite IH. split.
        -- intros H l [Hl|Hl] Hre; [subst l; rewrite Ef; discriminate|].
           exact (H l Hl Hre).
        -- intros H l Hl. apply H. right. exact Hl.
      * split; [intros [out H]; discriminate H|].
        intros H. exfalso.
        apply (H line); [left; reflexivity | exact Ere | exact Ef].
    + rewrite IH. split.
      * intros H l [Hl|Hl] Hre; [subst l; congruence | exact (H l Hl Hre)].
      * intros H l Hl. apply H. right. exact Hl.
Qed.

Lemma scan_lines_raises (lines acc : list string) (e : exn) :
  LenovoExe.scan_lines lines acc = Raise e -> e = IndexError.
Proof.
  revert acc. induction lines as [|line rest IH]; intros acc H.
  - discriminate H.
  - cbn [LenovoExe.scan_lines] in H.
    destruct (re_search LenovoExe.BIOS_CAPSULE_EXTENSION line);
      [|exact (IH _ H)].
    destruct (nth_error (split_ws line) 1); simpl in H.
    + exact (IH _ H).
    + congruence.
Qed.

(** X18.  Once innoextract has run, the listing of an installer succeeds
    exactly when it exited with 0, its output decodes as UTF-8 and every
    line of the text that carries the pattern has at least two fields.
    Otherwise it raises, in this order of precedence, [RuntimeError] with
    the exit status where that is not 0, [UnicodeDecodeError] where the
    output does not decode, and [IndexError] for a line with the pattern
    and a single field: one such line hides every capsule of the
    installer. *)
Theorem exe_listing_succeeds (E : LenovoExe.Env) (exe : string) :
  let run := LenovoExe.innoextract_l E exe in
  let decoded := LenovoExe.decode_utf8 E (LenovoExe.stdout run) in
  ((exists paths, LenovoExe._find_candidate_capsules E exe = Ok paths) <->
   LenovoExe.returncode run = 0%Z
   /\ exists text,
        decoded = Some text
        /\ forall line, In line (split "010"%char text) ->
             re_search LenovoExe.BIOS_CAPSULE_EXTENSION line = true ->
             nth_error (split_ws line) 1 <> None)
  /\ (forall e, LenovoExe._find_candidate_capsules E exe = Raise e ->
                if (LenovoExe.returncode run =? 0)%Z
                then match decoded with
                     | Some _ => e = IndexError
                     | None => e = UnicodeDecodeError
                     end
                else e = RuntimeError (Some (LenovoExe.returncode run))).
Proof.
  intros run decoded. unfold LenovoExe._find_candidate_capsules.
  fold run. fold decoded.
  destruct (LenovoExe.returncode run =? 0)%Z eqn:Erc; simpl.
  - apply Z.eqb_eq in Erc. destruct decoded as [text|]; simpl.
    + split.
      * rewrite scan_lines_succeeds. split.
        -- intros H. split; [exact Erc|]. exists text. auto.
        -- intros (_ & text' & Ht & H). injection Ht as <-. exact H.
      * intros e H. exact (scan_lines_raises _ _ H).
    + split.
      * split; [intros [paths H]; discriminate H|].
        intros (_ & text & Ht & _). discriminate Ht.
      * intros e H. injection H as <-. reflexivity.
  - apply Z.eqb_neq in Erc. split.
    + split; [intros [paths H]; discriminate H | tauto].
    + intros e H. injection H as <-. reflexivity.
Qed.

(** An output that is no UTF-8: a lone byte 255. *)
Example undecodable_listing_raises :
  LenovoExe._find_candidate_capsules
    {| LenovoExe.os_path_isfile := fun _ => true;
       LenovoExe.shutil_which := fun _ => Some "/usr/bin/innoextract";
       LenovoExe.mkdtemp := {| LenovoExe.name := "/tmp/uefiextract_0" |};
       LenovoExe.innoextract_l := fun _ =>
         {| LenovoExe.returncode := 0; LenovoExe.stdout := [Byte.xff] |};
       LenovoExe.decode_utf8 := Examples.utf8;
       LenovoExe.innoextract_I := fun _ _ _ fs =>
         ({| LenovoExe.returncode := 0; LenovoExe.stdout := [] |}, fs) |}
    "bios.exe"
  = Raise UnicodeDecodeError.
Proof. reflexivity. Qed.

(** A listing with the line [.FL1]: the pattern and one field. *)
Example lone_pattern_line_raises :
  LenovoExe._find_candidate_capsules
    (Examples.exe_env
       [Examples.listing_line "app/BIOS.FL1"; "see notes.FL1"; ".FL1"] [])
    "bios.exe"
  = Raise IndexError.
Proof. reflexivity. Qed.

End ArchiveListing.

(* ================================================================== *)
(** * Extraction of a capsule from the installer archive *)

Module Extraction.

Import Py.
Open Scope string_scope.

(** X19.  Entering an installer capsule succeeds exactly when innoextract exits
    with 0 and leaves a file at [os.path.join(tempdir, capsule_path)]; the
    handle is then at the start of that file.  The disk is left as
    innoextract left it, also when entering fails. *)
Theorem exe_enter_succeeds (E : LenovoExe.Env) (fs : LenovoExe.FileSystem)
  (c : LenovoExe.LenovoExeCapsule) :
  let run :=
    LenovoExe.innoextract_I E (LenovoExe.name (LenovoExe.capsule_tempdir c))
      (LenovoExe.capsule_path c) (LenovoExe.capsule_exe_path c) fs in
  let path :=
    os_path_join (LenovoExe.name (LenovoExe.capsule_tempdir c))
      (LenovoExe.capsule_path c) in
  fst (LenovoExe.Capsule__enter__ E fs c) = snd run
  /\ ((exists c', snd (LenovoExe.Capsule__enter__ E fs c) = Ok c') <->
      LenovoExe.returncode (fst run) = 0%Z /\ snd run path <> None)
  /\ (forall c', snd (LenovoExe.Capsule__enter__ E fs c) = Ok c' ->
      exists content,
        snd run path = Some content
        /\ LenovoExe.capsule_handle c'
           = Some {| LenovoExe.contents := content;
                     LenovoExe.position := 0 |}).
Proof.
  intros run path. subst run path.
  unfold LenovoExe.Capsule__enter__, LenovoExe._extract_capsule.
  destruct (LenovoExe.innoextract_I E _ _ _ fs) as [res fs1]. simpl.
  destruct (LenovoExe.returncode res =? 0)%Z eqn:Erc; simpl.
  - apply Z.eqb_eq in Erc.
    destruct (fs1 _) as [content|] eqn:Ef; simpl.
    + split; [reflexivity|]. split.
      * split; [intros _; split; [exact Erc | discriminate] | eauto].
      * intros c' H. injection H as <-. exists content. auto.
    + split; [reflexivity|]. split.
      * split; [intros [c' H]; discriminate H | intros [_ H]; congruence].
      * intros c' H. discriminate H.
  - apply Z.eqb_neq in Erc. split; [reflexivity|]. split.
    + split; [intros [c' H]; discriminate H | intros [H _]; contradiction].
    + intros c' H. discriminate H.
Qed.

End Extraction.
